(** * Ranked, paginated full-text search over a DuckDB index

    A shallow embedding of

    - [services/search/src/search/routes/search.py]: the count query, the
      direct strategy [_search_by_table], the chunked strategy
      [_search_by_batches], the coordinator [full_text_search] and the
      control flow of [search_endpoint];
    - [datasets_preview_backend/models/column/int.py]: [check_value] and
      [IntColumn.get_cell_value].

    Python integers are [Z]; positions in a table (offset, length, row
    counts) are [nat], the request layer having rejected negative values;
    relevance scores (finite doubles) are rationals [Q], of which only the
    order is ever used.  Exceptions are an explicit result type. *)

From Stdlib Require Import List ZArith QArith String Bool Arith Lia.
From Stdlib Require Import Permutation Sorted.
Import ListNotations.

Local Open Scope string_scope.
Local Open Scope list_scope.
Local Open Scope nat_scope.

(* ------------------------------------------------------------------ *)
(** ** Python values, exceptions and results *)

Module Py.

(** The exceptions the modelled code raises or lets through. *)
Inductive Exception : Type :=
| CellTypeError (msg : string)
| ArrowInvalid (msg : string)
| KeyError (key : string)
| IndexError (msg : string)
| IOException (msg : string)
| SearchFeatureNotAvailableError (msg : string)
| ApiException (name : string)
| OtherException (name : string).

Inductive Exc (A : Type) : Type :=
| Ok (a : A)
| Raise (e : Exception).
Arguments Ok {A} a.
Arguments Raise {A} e.

Definition exc_bind {A B} (m : Exc A) (k : A -> Exc B) : Exc B :=
  match m with
  | Ok a => k a
  | Raise e => Raise e
  end.

(** The result of [type(value)]. *)
Inductive PyType : Type :=
| TNoneType | TInt | TBool | TFloat | TStr | TList | TDict
| TClass (name : string).

#[local] Set Warnings "-register-all".
Inductive PyValue : Type :=
| PyNone
| PyInt (z : Z)
| PyBool (b : bool)
| PyFloat (q : Q)
| PyStr (s : string)
| PyList (l : list PyValue)
| PyDict (d : list (string * PyValue))
| PyObject (cls : string).

Definition py_type (v : PyValue) : PyType :=
  match v with
  | PyNone => TNoneType
  | PyInt _ => TInt
  | PyBool _ => TBool
  | PyFloat _ => TFloat
  | PyStr _ => TStr
  | PyList _ => TList
  | PyDict _ => TDict
  | PyObject cls => TClass cls
  end.

Definition pytype_eqb (a b : PyType) : bool :=
  match a, b with
  | TNoneType, TNoneType | TInt, TInt | TBool, TBool | TFloat, TFloat
  | TStr, TStr | TList, TList | TDict, TDict => true
  | TClass x, TClass y => String.eqb x y
  | _, _ => false
  end.

(** [value is None] *)
Definition is_none (v : PyValue) : bool :=
  match v with PyNone => true | _ => false end.

(** [value is True]: identity with the singleton [True]. *)
Definition is_True (v : PyValue) : bool :=
  match v with PyBool true => true | _ => false end.

(** [d[key]] on a dict: the first binding, [KeyError] when absent. *)
Fixpoint dict_get (d : list (string * PyValue)) (key : string) : Exc PyValue :=
  match d with
  | [] => Raise (KeyError key)
  | (k, v) :: rest => if String.eqb k key then Ok v else dict_get rest key
  end.


End Py.
Import Py.

(* ------------------------------------------------------------------ *)
(** ** models/column/int.py *)

Module IntColumn.

(** [check_value]: raise unless the value is [None] or of exact type
    [int]. *)
Definition check_value (value : PyValue) : Exc unit :=
  if negb (is_none value) && negb (pytype_eqb (py_type value) TInt)
  then Raise (CellTypeError "value type mismatch")
  else Ok tt.

(** [IntColumn.get_cell_value]; the four leading arguments are not
    used by the body. *)
Definition get_cell_value (dataset_name config_name split_name : string)
    (row_idx : Z) (value : PyValue) : Exc PyValue :=
  exc_bind (check_value value) (fun _ => Ok value).

End IntColumn.

(* ------------------------------------------------------------------ *)
(** ** Stable sorting

    [pyarrow]'s [sort_by] is documented as a stable sort.  It is modelled
    by insertion: [before a b] says that [a] is strictly ahead of [b] in
    the requested order.  A new element passes only the elements that
    are strictly ahead of it, so elements that compare equal keep the
    order in which they were given. *)

Module StableSort.

Section Sort.
Context {A : Type} (before : A -> A -> bool).

Fixpoint insert (x : A) (sorted : list A) : list A :=
  match sorted with
  | [] => [x]
  | y :: rest => if before y x then y :: insert x rest else x :: y :: rest
  end.

Fixpoint sort (l : list A) : list A :=
  match l with
  | [] => []
  | x :: rest => insert x (sort rest)
  end.

End Sort.

End StableSort.

(* ------------------------------------------------------------------ *)
(** ** pyarrow tables

    A table is a schema (the column names, in order) and its rows; a row
    holds one cell per column, in schema order. *)

Module Arrow.

Inductive Value : Type :=
| VNull
| VInt (z : Z)
| VFloat (q : Q)
| VStr (s : string).

Record Table : Type := mkTable {
  schema : list string;
  rows : list (list Value)
}.

Definition num_rows (t : Table) : nat := List.length (rows t).

Definition schema_eqb (a b : list string) : bool :=
  if list_eq_dec String.string_dec a b then true else false.

(** [Schema.get_field_index]: the position of the unique field of that
    name; nothing when the name is absent or duplicated. *)
Fixpoint positions (name : string) (names : list string) (i : nat) : list nat :=
  match names with
  | [] => []
  | n :: rest =>
      if String.eqb n name then i :: positions name rest (S i)
      else positions name rest (S i)
  end.

Definition get_field_index (names : list string) (name : string) : option nat :=
  match positions name names 0 with
  | [i] => Some i
  | _ => None
  end.

Fixpoint remove_nth {X : Type} (i : nat) (l : list X) : list X :=
  match l, i with
  | [], _ => []
  | _ :: rest, O => rest
  | x :: rest, S j => x :: remove_nth j rest
  end.

(** [pa.concat_tables(tables)] with the default [promote_options]: an
    empty list is refused, and so are tables whose schemas differ. *)
Definition concat_tables (tables : list Table) : Exc Table :=
  match tables with
  | [] => Raise (ArrowInvalid "Must pass at least one table")
  | first :: others =>
      if forallb (fun t => schema_eqb (schema t) (schema first)) others
      then Ok (mkTable (schema first) (flat_map rows tables))
      else Raise (ArrowInvalid "Schema at index was different")
  end.

(** Strictly ahead in descending order; nulls are placed at the end. *)
Definition value_before_desc (a b : Value) : bool :=
  match a, b with
  | VNull, _ => false
  | _, VNull => true
  | VInt x, VInt y => (y <? x)%Z
  | VFloat x, VFloat y => negb (Qle_bool x y)
  | VStr x, VStr y => String.ltb y x
  | _, _ => false
  end.

Definition cell (i : nat) (row : list Value) : Value := nth i row VNull.

(** [table.sort_by([(name, "descending")])] *)
Definition sort_by_descending (t : Table) (name : string) : Exc Table :=
  match get_field_index (schema t) name with
  | None => Raise (ArrowInvalid "No match for FieldRef.Name")
  | Some i =>
      Ok (mkTable (schema t)
            (StableSort.sort
               (fun r1 r2 => value_before_desc (cell i r1) (cell i r2))
               (rows t)))
  end.

(** [table.drop(name)] *)
Definition drop (t : Table) (name : string) : Exc Table :=
  match get_field_index (schema t) name with
  | None => Raise (KeyError name)
  | Some i => Ok (mkTable (remove_nth i (schema t)) (map (remove_nth i) (rows t)))
  end.

(** [table.slice(offset, length)] *)
Definition slice (t : Table) (offset length : nat) : Table :=
  mkTable (schema t) (firstn length (skipn offset (rows t))).

End Arrow.
Import Arrow.

(* ------------------------------------------------------------------ *)
(** ** The DuckDB index and the three SQL commands

    The index file holds the table [data], whose first column is
    [__hf_index_id], and the full-text index behind
    [fts_main_data.match_bm25], which gives a row identifier and a query
    a score, or NULL when the row does not match. *)

Module DuckDB.

Definition ROW_IDX_COLUMN : string := "__hf_index_id".
Definition FTS_SCORE_COLUMN : string := "__hf_fts_score".

Record DataRow : Type := mkRow {
  hf_index_id : Z;
  cells : list Value
}.

Record Index : Type := mkIndex {
  columns : list string;
  data : list DataRow;
  match_bm25 : Z -> string -> option Q
}.

(** The commands of [search.py], with the holes that [str.format] fills. *)
Inductive SqlCommand : Type :=
| FTS_COUNT_COMMAND
| FTS_BY_TABLE_COMMAND (offset length : nat)
| FTS_BY_BATCHES_COMMAND (offset length : Z).

(** What SQL leaves to the engine: the order in which [ORDER BY
    __hf_fts_score DESC] emits rows of equal score. *)
Record Engine : Type := mkEngine {
  order_by_score_desc : list (DataRow * Q) -> list (DataRow * Q)
}.

(** The contract of [ORDER BY ... DESC]: the same rows, by descending
    score. *)
Definition score_ge (a b : DataRow * Q) : Prop := (snd b <= snd a)%Q.

Definition engine_ok (E : Engine) : Prop :=
  forall l, Permutation (order_by_score_desc E l) l
            /\ StronglySorted score_ge (order_by_score_desc E l).

Definition data_schema (idx : Index) : list string :=
  ROW_IDX_COLUMN :: columns idx.

(** [SELECT *] on a row of [data]: the identifier, then one cell per
    declared column. *)
Definition row_values (idx : Index) (r : DataRow) : list Value :=
  VInt (hf_index_id r)
  :: map (fun j => nth j (cells r) VNull) (seq 0 (List.length (columns idx))).

(** [SELECT *, fts_main_data.match_bm25(__hf_index_id, ?) AS __hf_fts_score] *)
Definition scored (idx : Index) (query : string) (rs : list DataRow)
  : list (DataRow * option Q) :=
  map (fun r => (r, match_bm25 idx (hf_index_id r) query)) rs.

(** [WHERE __hf_fts_score IS NOT NULL] *)
Definition where_score_is_not_null (l : list (DataRow * option Q))
  : list (DataRow * Q) :=
  flat_map (fun rs => match snd rs with
                      | Some s => [(fst rs, s)]
                      | None => []
                      end) l.

(** [WHERE __hf_index_id BETWEEN lo AND hi]: both bounds are included. *)
Definition between (lo hi : Z) (r : DataRow) : bool :=
  (lo <=? hf_index_id r)%Z && (hf_index_id r <=? hi)%Z.

Definition scored_values (idx : Index) (rs : DataRow * Q) : list Value :=
  row_values idx (fst rs) ++ [VFloat (snd rs)].

(** [SELECT * EXCLUDE (name)] *)
Definition exclude {X : Type} (name : string) (names : list string) (row : list X)
  : list X :=
  map snd (filter (fun p => negb (String.eqb (fst p) name)) (combine names row)).

Definition exclude_column (name : string) (t : Table) : Table :=
  mkTable (exclude name (schema t) (schema t))
          (map (exclude name (schema t)) (rows t)).

(** The rows of the index that match the query, in the order of [data]. *)
Definition matches (idx : Index) (query : string) : list (DataRow * Q) :=
  where_score_is_not_null (scored idx query (data idx)).

(** [con.execute(command, [query])] *)
Definition execute (E : Engine) (idx : Index) (command : SqlCommand)
    (query : string) : Table :=
  match command with
  | FTS_COUNT_COMMAND =>
      mkTable ["count_star()"]
              [[VInt (Z.of_nat (List.length (matches idx query)))]]
  | FTS_BY_TABLE_COMMAND offset length =>
      exclude_column FTS_SCORE_COLUMN
        (mkTable (data_schema idx ++ [FTS_SCORE_COLUMN])
           (map (scored_values idx)
              (firstn length
                 (skipn offset (order_by_score_desc E (matches idx query))))))
  | FTS_BY_BATCHES_COMMAND lo hi =>
      mkTable (data_schema idx ++ [FTS_SCORE_COLUMN])
        (map (scored_values idx)
           (where_score_is_not_null
              (scored idx query (filter (between lo hi) (data idx)))))
  end.

End DuckDB.
Import DuckDB.

(* ------------------------------------------------------------------ *)
(** ** Effects: the log of what was done to the index, and exceptions

    A computation extends the log of events and either returns a value
    or raises.  The log is what lets a statement say which queries were
    issued, and in which order. *)

Module Effects.

Inductive Event : Type :=
| EvDownload (filename : PyValue)
| EvConnect (database : string)
| EvExecute (command : SqlCommand) (parameters : list string)
| EvClose (database : string).

Definition M (A : Type) : Type := list Event -> Exc A * list Event.

Definition ret {A} (a : A) : M A := fun log => (Ok a, log).

Definition raise {A} (e : Exception) : M A := fun log => (Raise e, log).

Definition bind {A B} (m : M A) (k : A -> M B) : M B :=
  fun log =>
    match m log with
    | (Ok a, log') => k a log'
    | (Raise e, log') => (Raise e, log')
    end.

Definition lift {A} (r : Exc A) : M A := fun log => (r, log).

Definition emit (ev : Event) : M unit := fun log => (Ok tt, log ++ [ev]).

(** [try: m except Exception as e: return h e] *)
Definition try_except {A} (m : M A) (h : Exception -> A) : M A :=
  fun log =>
    match m log with
    | (Ok a, log') => (Ok a, log')
    | (Raise e, log') => (Ok (h e), log')
    end.

(** Run from an empty log. *)
Definition run {A} (m : M A) : Exc A * list Event := m [].

End Effects.
Import Effects.

Declare Scope eff_scope.
Delimit Scope eff_scope with eff.
Notation "x <- m ;; k" := (bind m (fun x => k))
  (at level 100, m at next level, right associativity) : eff_scope.
Notation "m ;;; k" := (bind m (fun _ => k))
  (at level 100, right associativity) : eff_scope.

(* ------------------------------------------------------------------ *)
(** ** services/search/src/search/routes/search.py *)

Module Routes.

Local Open Scope eff_scope.

Definition FTS_BATCH_SIZE : Z := 1000.

Definition DATASETS_WITH_FTS_BY_BATCHES : list string :=
  ["wikimedia/wikipedia"; "asoria/search_test"].

(** An open connection: the engine and the index file it was opened on. *)
Record DuckDBPyConnection : Type := mkCon {
  con_engine : Engine;
  con_index : Index
}.

(** [con.execute(query=command, parameters=[query])] *)
Definition con_execute (con : DuckDBPyConnection) (command : SqlCommand)
    (query : string) : M Table :=
  emit (EvExecute command [query]) ;;;
  ret (execute (con_engine con) (con_index con) command query).

(** [range(start, stop, step)] for a positive step. *)
Definition py_range (start stop step : Z) : list Z :=
  map (fun k => (start + Z.of_nat k * step)%Z)
      (seq 0 (Z.to_nat ((stop - start + step - 1) / step))).

Definition _search_by_table (con : DuckDBPyConnection) (query : string)
    (offset length : nat) : M Table :=
  con_execute con (FTS_BY_TABLE_COMMAND offset length) query.

(** The [for] loop of [_search_by_batches] over the remaining values of
    [index], with the loop's variables [num_matched_rows] and
    [pa_tables]; [break] ends it. *)
Fixpoint batches_loop (con : DuckDBPyConnection) (query : string)
    (offset length : nat) (indices : list Z)
    (num_matched_rows : nat) (pa_tables : list Table) : M (list Table) :=
  match indices with
  | [] => ret pa_tables
  | index :: later =>
      pa_table <- con_execute con
                    (FTS_BY_BATCHES_COMMAND index (index + FTS_BATCH_SIZE)) query ;;
      let pa_tables := pa_tables ++ [pa_table] in
      let num_matched_rows := num_matched_rows + num_rows pa_table in
      if offset + length <? num_matched_rows
      then ret pa_tables
      else batches_loop con query offset length later num_matched_rows pa_tables
  end.

Definition _search_by_batches (num_original_rows : Z)
    (con : DuckDBPyConnection) (query : string) (offset length : nat)
  : M Table :=
  pa_tables <- batches_loop con query offset length
                 (py_range 0 num_original_rows FTS_BATCH_SIZE) 0 [] ;;
  pa_result <- lift (concat_tables pa_tables) ;;
  pa_result <- lift (sort_by_descending pa_result FTS_SCORE_COLUMN) ;;
  pa_result <- lift (drop pa_result FTS_SCORE_COLUMN) ;;
  ret (slice pa_result offset length).

(** What can be opened: the engine, and the index stored at each
    location. *)
Record World : Type := mkWorld {
  engine : Engine;
  files : string -> option Index
}.

(** [with duckdb_connect(extensions_directory=..., database=...) as con:]
    the connection is closed on every way out of the body. *)
Definition with_duckdb_connect {A} (w : World)
    (extensions_directory : option string) (database : string)
    (body : DuckDBPyConnection -> M A) : M A :=
  fun log =>
    match files w database with
    | None => (Raise (IOException database), log)
    | Some idx =>
        let (r, log') := body (mkCon (engine w) idx) (log ++ [EvConnect database]) in
        (r, log' ++ [EvClose database])
    end.

(** [rows[i][j]] on the result of [fetchall()] *)
Definition fetched_cell (fetched : list (list Value)) (i j : nat) : Exc Value :=
  match nth_error fetched i with
  | None => Raise (IndexError "list index out of range")
  | Some row =>
      match nth_error row j with
      | None => Raise (IndexError "tuple index out of range")
      | Some v => Ok v
      end
  end.

Definition full_text_search (w : World) (num_original_rows : Z)
    (fts_batches : bool) (index_file_location : string) (query : string)
    (offset length : nat) (extensions_directory : option string)
  : M (Value * Table) :=
  with_duckdb_connect w extensions_directory index_file_location (fun con =>
    count_result <- con_execute con FTS_COUNT_COMMAND query ;;
    num_rows_total <- lift (fetched_cell (rows count_result) 0 0) ;;
    pa_table <- (if fts_batches
                 then _search_by_batches num_original_rows con query offset length
                 else _search_by_table con query offset length) ;;
    ret (num_rows_total, pa_table)).

End Routes.
Import Routes.

(* ------------------------------------------------------------------ *)
(** ** The endpoint: [create_search_endpoint] and [search_endpoint]

    The functions imported from [libapi] and [libcommon] are taken as
    given; the endpoint is modelled over any choice of them. *)

Module Endpoint.

Local Open Scope eff_scope.

Definition Dict : Type := list (string * PyValue).
Definition Features : Type := Dict.

(** A request, as far as the collaborators read it. *)
Record Request : Type := mkRequest {
  query_params : list (string * string);
  headers : list (string * string)
}.

Record Collaborators : Type := mkCollaborators {
  get_request_parameter : Request -> string -> Exc string;
  get_request_parameter_offset : Request -> Exc nat;
  get_request_parameter_length : Request -> Exc nat;
  auth_check : string -> Request -> Exc unit;
  get_cache_entry_from_duckdb_index_job : string -> string -> string -> Exc Dict;
  duckdb_index_is_partial : PyValue -> Exc bool;
  get_index_file_location_and_download_if_missing :
    string -> string -> string -> PyValue -> PyValue -> PyValue -> Exc string;
  features_from_dict : Dict -> Exc Features;
  features_from_arrow_schema : list string -> Exc Features;
  get_supported_unsupported_columns : Features -> list string * list string;
  to_features_list : Features -> PyValue;
  to_rows_list : Table -> nat -> Features -> list string -> Exc PyValue;
  MAX_NUM_ROWS_PER_PAGE : Z
}.

(** The arguments of [create_search_endpoint] that the body of the
    endpoint reads itself. *)
Record Settings : Type := mkSettings {
  max_age_long : Z;
  max_age_short : Z;
  extensions_directory : option string
}.

Record PaginatedResponse : Type := mkPaginatedResponse {
  resp_features : PyValue;
  resp_rows : PyValue;
  resp_num_rows_total : Value;
  resp_num_rows_per_page : Z;
  resp_partial : bool
}.

(** [e if isinstance(e, ApiError) else UnexpectedApiError("Unexpected error.", e)] *)
Inductive ApiError : Type :=
| ApiErrorOf (e : Exception)
| UnexpectedApiError (msg : string) (cause : Exception).

Definition is_api_error (e : Exception) : bool :=
  match e with
  | SearchFeatureNotAvailableError _ | ApiException _ => true
  | _ => false
  end.

Inductive Response : Type :=
| JsonOkResponse (content : PaginatedResponse) (max_age : Z) (revision : PyValue)
| JsonErrorResponse (content status_code : PyValue) (max_age : Z)
                    (error_code revision : PyValue)
| JsonApiErrorResponse (error : ApiError) (max_age : Z) (revision : PyValue).

(** [value != HTTPStatus.OK], with [HTTPStatus] an [IntEnum]. *)
Definition is_not_http_ok (v : PyValue) : bool :=
  match v with
  | PyInt z => negb (z =? 200)%Z
  | PyFloat q => negb (Qeq_bool q 200)
  | _ => true
  end.

Definition as_dict (v : PyValue) : Exc Dict :=
  match v with
  | PyDict d => Ok d
  | _ => Raise (OtherException "TypeError")
  end.

Definition as_int (v : PyValue) : Exc Z :=
  match v with
  | PyInt z => Ok z
  | PyBool b => Ok (if b then 1 else 0)%Z
  | _ => Raise (OtherException "TypeError")
  end.

(** The two functions of the search as the endpoint calls them:
    [num_original_rows] is whatever the cache entry holds.  Only
    [range], in the chunked strategy, reads it, and raises [TypeError]
    unless it is an integer; the connection is open and the count done
    by then. *)
Definition _search_by_batches_dyn (num_original_rows : PyValue)
    (con : DuckDBPyConnection) (query : string) (offset length : nat)
  : M Table :=
  n <- lift (as_int num_original_rows) ;;
  _search_by_batches n con query offset length.

Definition full_text_search_dyn (w : World) (num_original_rows : PyValue)
    (fts_batches : bool) (index_file_location : string) (query : string)
    (offset length : nat) (extensions_directory : option string)
  : M (Value * Table) :=
  with_duckdb_connect w extensions_directory index_file_location (fun con =>
    count_result <- con_execute con FTS_COUNT_COMMAND query ;;
    num_rows_total <- lift (fetched_cell (rows count_result) 0 0) ;;
    pa_table <- (if fts_batches
                 then _search_by_batches_dyn num_original_rows con query
                        offset length
                 else _search_by_table con query offset length) ;;
    ret (num_rows_total, pa_table)).

(** [features.pop(key, None)] on a copy *)
Definition dict_pop (d : Dict) (key : string) : Dict :=
  filter (fun kv => negb (String.eqb (fst kv) key)) d.

(** [pa_table.drop(columns)] *)
Definition drop_columns (t : Table) (names : list string) : Exc Table :=
  fold_left (fun acc name => exc_bind acc (fun t' => drop t' name)) names (Ok t).

Definition create_response (c : Collaborators) (pa_table : Table)
    (offset : nat) (features : Features) (num_rows_total : Value)
    (partial : bool) : Exc PaginatedResponse :=
  let features_without_key := dict_pop features ROW_IDX_COLUMN in
  let unsupported_columns := snd (get_supported_unsupported_columns c features) in
  exc_bind (drop_columns pa_table unsupported_columns) (fun pa_table =>
  exc_bind (to_rows_list c pa_table offset features unsupported_columns) (fun rows_list =>
  Ok (mkPaginatedResponse (to_features_list c features_without_key) rows_list
        num_rows_total (MAX_NUM_ROWS_PER_PAGE c) partial))).

(** The [except Exception as e:] clause, with the value that [revision]
    has when it runs. *)
Definition on_exception (s : Settings) (revision : PyValue) (e : Exception)
  : Response :=
  JsonApiErrorResponse
    (if is_api_error e then ApiErrorOf e
     else UnexpectedApiError "Unexpected error." e)
    (max_age_short s) revision.

(** The body of the [try] from the assignment of [revision] on. *)
Definition search_with_cache_entry (c : Collaborators) (s : Settings)
    (w : World) (dataset config split query : string) (offset length : nat)
    (duckdb_index_cache_entry : Dict) (revision : PyValue) : M Response :=
  http_status <- lift (dict_get duckdb_index_cache_entry "http_status") ;;
  if is_not_http_ok http_status then
    content <- lift (dict_get duckdb_index_cache_entry "content") ;;
    error_code <- lift (dict_get duckdb_index_cache_entry "error_code") ;;
    ret (JsonErrorResponse content http_status (max_age_short s) error_code revision)
  else
    content <- lift (exc_bind (dict_get duckdb_index_cache_entry "content") as_dict) ;;
    has_fts <- lift (dict_get content "has_fts") ;;
    if negb (is_True has_fts) then
      raise (SearchFeatureNotAvailableError
               "The split does not have search feature enabled.")
    else
      url <- lift (dict_get content "url") ;;
      filename <- lift (dict_get content "filename") ;;
      num_original_rows <- lift (dict_get content "num_rows") ;;
      partial <- lift (duckdb_index_is_partial c url) ;;
      emit (EvDownload filename) ;;;
      index_file_location <-
        lift (get_index_file_location_and_download_if_missing c
                dataset config split revision filename url) ;;
      let fts_batches :=
        existsb (String.eqb dataset) DATASETS_WITH_FTS_BY_BATCHES in
      found <- full_text_search_dyn w num_original_rows fts_batches
                 index_file_location query offset length
                 (extensions_directory s) ;;
      let (num_rows_total, pa_table) := (found : Value * Table) in
      features <-
        lift (match dict_get content "features" with
              | Ok (PyDict d) => features_from_dict c d
              | _ => features_from_arrow_schema c (schema pa_table)
              end) ;;
      response <- lift (create_response c pa_table offset features
                          num_rows_total partial) ;;
      ret (JsonOkResponse response (max_age_long s) revision).

Definition search_endpoint (c : Collaborators) (s : Settings) (w : World)
    (request : Request) : M Response :=
  try_except
    (dataset <- lift (get_request_parameter c request "dataset") ;;
     config <- lift (get_request_parameter c request "config") ;;
     split <- lift (get_request_parameter c request "split") ;;
     query <- lift (get_request_parameter c request "query") ;;
     offset <- lift (get_request_parameter_offset c request) ;;
     length <- lift (get_request_parameter_length c request) ;;
     lift (auth_check c dataset request) ;;;
     duckdb_index_cache_entry <-
       lift (get_cache_entry_from_duckdb_index_job c dataset config split) ;;
     revision <- lift (dict_get duckdb_index_cache_entry "dataset_git_revision") ;;
     try_except
       (search_with_cache_entry c s w dataset config split query offset length
          duckdb_index_cache_entry revision)
       (on_exception s revision))
    (on_exception s PyNone).

End Endpoint.
Import Endpoint.

(* ------------------------------------------------------------------ *)
(** ** Vocabulary of the statements, engines and sample indexes *)

(** The reserved score column is not a column of [data]. *)
Definition index_wf (idx : Index) : Prop :=
  ~ In FTS_SCORE_COLUMN (columns idx).

(** The row has a non-null relevance score for the query. *)
Definition has_score (idx : Index) (query : string) (r : DataRow) : bool :=
  match match_bm25 idx (hf_index_id r) query with
  | Some _ => true
  | None => false
  end.

(** The window starting at [index] asks for the row. *)
Definition covers (r : DataRow) (index : Z) : bool :=
  between index (index + FTS_BATCH_SIZE) r.

(** Every matching row is asked for by exactly one of the windows. *)
Definition covered_once (idx : Index) (query : string) (indices : list Z) : Prop :=
  forall r, In r (data idx) -> has_score idx query r = true ->
            List.length (filter (covers r) indices) = 1.

(** Strictly ahead in descending score order. *)
Definition score_before (a b : DataRow * Q) : bool :=
  negb (Qle_bool (snd a) (snd b)).

(** The matching rows that the window starting at [index] returns. *)
Definition window_rows (idx : Index) (query : string) (index : Z)
  : list (DataRow * Q) :=
  where_score_is_not_null
    (scored idx query (filter (between index (index + FTS_BATCH_SIZE)) (data idx))).

Definition window_event (query : string) (index : Z) : Event :=
  EvExecute (FTS_BY_BATCHES_COMMAND index (index + FTS_BATCH_SIZE)) [query].

Definition window_table (con : DuckDBPyConnection) (query : string) (index : Z)
  : Table :=
  execute (con_engine con) (con_index con)
          (FTS_BY_BATCHES_COMMAND index (index + FTS_BATCH_SIZE)) query.

(** How many windows the loop visits: it leaves after the first window
    that takes the running count above [limit]. *)
Fixpoint stop_after (limit count : nat) (sizes : list nat) : nat :=
  match sizes with
  | [] => 0
  | size :: later =>
      if limit <? count + size then 1
      else S (stop_after limit (count + size) later)
  end.

(** The number of matched rows accumulated once the first [j] of the
    windows starting at [indices] have been queried. *)
Definition running_count (con : DuckDBPyConnection) (query : string)
    (indices : list Z) (j : nat) : nat :=
  list_sum (map (fun index => num_rows (window_table con query index))
                (firstn j indices)).

(** The chunked strategy, once the loop is resolved: the pipeline of
    [pyarrow] calls applied to the tables of the windows visited. *)
Definition after_loop (tables : list Table) (offset length : nat) : Exc Table :=
  exc_bind (concat_tables tables) (fun concatenated =>
  exc_bind (sort_by_descending concatenated FTS_SCORE_COLUMN) (fun sorted =>
  exc_bind (drop sorted FTS_SCORE_COLUMN) (fun dropped =>
  Ok (slice dropped offset length)))).

(** The page as typed rows: positions [offset, offset + length) of a
    ranking. *)
Definition page_of (idx : Index) (offset length : nat)
    (ranked : list (DataRow * Q)) : list (list Value) :=
  map (row_values idx) (map fst (firstn length (skipn offset ranked))).

(** An engine whose [ORDER BY] keeps rows of equal score in table
    order, and one that emits them in the opposite order. *)
Definition stable_engine : Engine :=
  mkEngine (StableSort.sort score_before).

Definition tie_reversing_engine : Engine :=
  mkEngine (fun l => StableSort.sort score_before (rev l)).

(** [n] rows numbered from 0, one text column. *)
Definition numbered_rows (n : nat) : list DataRow :=
  map (fun k => mkRow (Z.of_nat k) [VStr "doc"]) (seq 0 n).

(** The index of the end-to-end example: 2500 rows, of which rows 50,
    1200, 2100 and 900 match, with scores 9.1, 8.7, 9.5 and 9.5. *)
Definition example_scores (id : Z) (query : string) : option Q :=
  if (id =? 50)%Z then Some (91 # 10)
  else if (id =? 1200)%Z then Some (87 # 10)
  else if (id =? 2100)%Z then Some (95 # 10)
  else if (id =? 900)%Z then Some (95 # 10)
  else None.

Definition example_index : Index :=
  mkIndex ["text"] (numbered_rows 2500) example_scores.

(** 1001 rows, of which only row 1000 matches. *)
Definition boundary_index : Index :=
  mkIndex ["text"] (numbered_rows 1001)
          (fun id _ => if (id =? 1000)%Z then Some 1%Q else None).

(** Two rows of equal score. *)
Definition tied_index : Index :=
  mkIndex ["text"] (numbered_rows 2) (fun _ _ => Some 1%Q).

Definition con_of (E : Engine) (idx : Index) : DuckDBPyConnection := mkCon E idx.

Definition world_of (E : Engine) (location : string) (idx : Index) : World :=
  mkWorld E (fun l => if String.eqb l location then Some idx else None).

(** A deployment for running the endpoint: every request is authorised
    and the cache reports one index, with the given [has_fts]. *)
Definition sample_cache_entry (has_fts : PyValue) : Dict :=
  [("dataset_git_revision", PyStr "refs/convert/duckdb");
   ("http_status", PyInt 200);
   ("error_code", PyNone);
   ("content",
    PyDict [("has_fts", has_fts);
            ("url", PyStr "https://hub/index.duckdb");
            ("filename", PyStr "index.duckdb");
            ("num_rows", PyInt 2500)])].

Definition value_to_py (v : Value) : PyValue :=
  match v with
  | VNull => PyNone
  | VInt z => PyInt z
  | VFloat q => PyFloat q
  | VStr s => PyStr s
  end.

Definition sample_collaborators (has_fts : PyValue) : Collaborators :=
  mkCollaborators
    (fun request name =>
       match find (fun kv => String.eqb (fst kv) name) (query_params request) with
       | Some kv => Ok (snd kv)
       | None => Raise (ApiException "MissingRequiredParameterError")
       end)
    (fun _ => Ok 0)
    (fun _ => Ok 2)
    (fun _ _ => Ok tt)
    (fun _ _ _ => Ok (sample_cache_entry has_fts))
    (fun _ => Ok false)
    (fun _ _ _ _ _ _ => Ok "index.duckdb")
    (fun d => Ok d)
    (fun names => Ok (map (fun name => (name, PyNone)) names))
    (fun features => (map fst features, []))
    (fun features => PyList (map (fun kv => PyStr (fst kv)) features))
    (fun t _ _ _ => Ok (PyList (map (fun row => PyList (map value_to_py row)) (rows t))))
    100.

(** The same deployment, whose cache reports an index without a
    usable row count, and a request for a dataset that is not scanned
    in windows. *)
Definition uncounted_collaborators : Collaborators :=
  mkCollaborators
    (get_request_parameter (sample_collaborators PyNone))
    (fun _ => Ok 0)
    (fun _ => Ok 2)
    (fun _ _ => Ok tt)
    (fun _ _ _ =>
       Ok [("dataset_git_revision", PyStr "refs/convert/duckdb");
           ("http_status", PyInt 200);
           ("error_code", PyNone);
           ("content",
            PyDict [("has_fts", PyBool true);
                    ("url", PyStr "https://hub/index.duckdb");
                    ("filename", PyStr "index.duckdb");
                    ("num_rows", PyNone)])])
    (fun _ => Ok false)
    (fun _ _ _ _ _ _ => Ok "index.duckdb")
    (fun d => Ok d)
    (fun names => Ok (map (fun name => (name, PyNone)) names))
    (fun features => (map fst features, []))
    (fun features => PyList (map (fun kv => PyStr (fst kv)) features))
    (fun t _ _ _ => Ok (PyList (map (fun row => PyList (map value_to_py row)) (rows t))))
    100.

Definition other_request : Request :=
  mkRequest [("dataset", "user/dataset"); ("config", "default");
             ("split", "train"); ("query", "query")] [].

Definition sample_settings : Settings := mkSettings 120 10 None.

Definition sample_request : Request :=
  mkRequest [("dataset", "wikimedia/wikipedia"); ("config", "default");
             ("split", "train"); ("query", "query")] [].

(** The first row indices of the windows that the chunked strategy
    queries. *)
Definition visited_windows (con : DuckDBPyConnection) (query : string)
    (offset length : nat) (num_original_rows : Z) : list Z :=
  let indices := py_range 0 num_original_rows FTS_BATCH_SIZE in
  firstn (stop_after (offset + length) 0
            (map (fun i => num_rows (window_table con query i)) indices))
         indices.

(** The events of the strategy that [full_text_search] selects. *)
Definition strategy_events (con : DuckDBPyConnection) (fts_batches : bool)
    (query : string) (offset length : nat) (num_original_rows : Z) : list Event :=
  if fts_batches
  then map (window_event query)
           (visited_windows con query offset length num_original_rows)
  else [EvExecute (FTS_BY_TABLE_COMMAND offset length) [query]].

Definition is_window_query (ev : Event) : bool :=
  match ev with
  | EvExecute (FTS_BY_BATCHES_COMMAND _ _) _ => true
  | _ => false
  end.

Definition is_table_query (ev : Event) : bool :=
  match ev with
  | EvExecute (FTS_BY_TABLE_COMMAND _ _) _ => true
  | _ => false
  end.

(* ------------------------------------------------------------------ *)
(** ** models/column/int.py: [check_values] and [IntColumn.__init__]

    [check_feature_type] and the members of [ColumnType] other than
    [INT] are declared in [models/column/default.py]; the former is
    taken as given. *)

Module ColumnInference.

(** What the construction of a column raises: the exceptions of
    [check_value], and two of its own. *)
Inductive ColumnException : Type :=
| CellException (e : Exception)
| ColumnInferenceError (msg : string)
| ColumnTypeError (msg : string).

Inductive Outcome (A : Type) : Type :=
| Done (a : A)
| Failed (e : ColumnException).
Arguments Done {A} a.
Arguments Failed {A} e.

Definition of_exc {A} (r : Exc A) : Outcome A :=
  match r with
  | Ok a => Done a
  | Raise e => Failed (CellException e)
  end.

Definition and_then {A B} (m : Outcome A) (k : A -> Outcome B) : Outcome B :=
  match m with
  | Done a => k a
  | Failed e => Failed e
  end.

(** [bool(value)] *)
Definition py_truthy (v : PyValue) : bool :=
  match v with
  | PyNone => false
  | PyInt z => negb (z =? 0)%Z
  | PyBool b => b
  | PyFloat q => negb (Qeq_bool q 0)
  | PyStr s => negb (String.eqb s "")
  | PyList l => match l with [] => false | _ => true end
  | PyDict d => match d with [] => false | _ => true end
  | PyObject _ => true
  end.

(** [for value in values: check_value(value)] *)
Fixpoint check_each (values : list PyValue) : Outcome unit :=
  match values with
  | [] => Done tt
  | value :: later =>
      and_then (of_exc (IntColumn.check_value value)) (fun _ => check_each later)
  end.

Definition check_values (values : list PyValue) : Outcome unit :=
  and_then (check_each values) (fun _ =>
  if py_truthy (PyList values) && forallb is_none values
  then Failed (ColumnInferenceError
                 "all the values are None, cannot infer column type")
  else Done tt).

Inductive ColumnType : Type :=
| INT
| OtherColumnType (member : string).

Record Column : Type := mkColumn {
  name : string;
  type : ColumnType
}.

Definition INT_DTYPES : list string :=
  ["int8"; "int16"; "int32"; "int64"; "uint8"; "uint16"; "uint32"; "uint64"].

(** [IntColumn(name, feature, values)] *)
Definition IntColumn_init
    (check_feature_type : PyValue -> string -> list string -> Exc unit)
    (name : string) (feature : PyValue) (values : list PyValue)
  : Outcome Column :=
  and_then
    (if py_truthy feature then
       match check_feature_type feature "Value" INT_DTYPES with
       | Ok _ => Done tt
       | Raise _ => Failed (ColumnTypeError "feature type mismatch")
       end
     else Done tt) (fun _ =>
  and_then (check_values values) (fun _ =>
  Done (mkColumn name INT))).

End ColumnInference.
Import ColumnInference.

(* ------------------------------------------------------------------ *)
(** ** mongodb_migration/migrations/_20230424174000_cache_delete_parquet_and_dataset_info.py

    The MongoDB deployment is a family of collections of documents,
    reached by connection alias and collection name.  The two names
    that the migration imports from [libcommon.constants] are taken as
    given. *)

Module Migration.

Definition Document : Type := list (string * PyValue).

Definition Mongo : Type := string -> string -> list Document.

Inductive MigrationException : Type :=
| IrreversibleMigrationError (msg : string)
| ValueError (msg : string).

(** A step of a migration: it may change the collections, and returns
    or raises. *)
Definition Step (A : Type) : Type := Mongo -> (A + MigrationException) * Mongo.

Definition cache_kind : string := "/parquet-and-dataset-info".

(** The query [{field: value}] with a string value: the document's
    field holds that string, or an array with that string among its
    elements. *)
Definition is_str (value : string) (v : PyValue) : bool :=
  match v with
  | PyStr s => String.eqb s value
  | _ => false
  end.

Definition field_equals (field value : string) (doc : Document) : bool :=
  match dict_get doc field with
  | Ok (PyList l) => existsb (is_str value) l
  | Ok v => is_str value v
  | Raise _ => false
  end.

(** [db[collection].delete_many({field: value})] *)
Definition delete_many (alias collection field value : string) : Step unit :=
  fun db =>
    (inl tt,
     fun a c =>
       if String.eqb a alias && String.eqb c collection
       then filter (fun doc => negb (field_equals field value doc)) (db a c)
       else db a c).

(** [db[collection].count_documents({field: value})] *)
Definition count_documents (alias collection field value : string) : Step nat :=
  fun db =>
    (inl (List.length (filter (field_equals field value) (db alias collection))),
     db).

Section Constants.
Variables CACHE_MONGOENGINE_ALIAS CACHE_COLLECTION_RESPONSES : string.

Definition up : Step unit :=
  delete_many CACHE_MONGOENGINE_ALIAS CACHE_COLLECTION_RESPONSES "kind" cache_kind.

Definition down : Step unit :=
  fun db =>
    (inr (IrreversibleMigrationError "This migration does not support rollback"),
     db).

Definition validate : Step unit :=
  fun db =>
    match count_documents CACHE_MONGOENGINE_ALIAS CACHE_COLLECTION_RESPONSES
                          "kind" cache_kind db with
    | (inl n, db') =>
        if (0 <? n)%nat
        then (inr (ValueError ("Found documents with kind " ++ cache_kind)%string), db')
        else (inl tt, db')
    | (inr e, db') => (inr e, db')
    end.

End Constants.

End Migration.

(* ================================================================== *)
(** * Properties *)

(* ------------------------------------------------------------------ *)
(** ** The stable sort *)

Section SortFacts.
Context {A : Type} (before : A -> A -> bool).

Lemma insert_perm (x : A) (l : list A) :
  Permutation (StableSort.insert before x l) (x :: l).
Proof.
  induction l as [|y l IH]; simpl; [reflexivity|].
  destruct (before y x); [|reflexivity].
  rewrite IH. apply perm_swap.
Qed.

Lemma sort_perm (l : list A) : Permutation (StableSort.sort before l) l.
Proof.
  induction l as [|x l IH]; simpl; [constructor|].
  rewrite insert_perm. now constructor.
Qed.

Lemma insert_Forall (P : A -> Prop) (x : A) (l : list A) :
  P x -> Forall P l -> Forall P (StableSort.insert before x l).
Proof.
  intros Hx Hl. eapply Permutation_Forall.
  - symmetry. apply insert_perm.
  - now constructor.
Qed.

(** The result is ordered by any transitive relation [R] that [before]
    decides. *)
Lemma sort_sorted (R : A -> A -> Prop) :
  (forall a b, before a b = true -> R a b) ->
  (forall a b, before a b = false -> R b a) ->
  (forall a b c, R a b -> R b c -> R a c) ->
  forall l, StronglySorted R (StableSort.sort before l).
Proof.
  intros Hyes Hno Htrans.
  assert (Hins : forall x s, StronglySorted R s ->
                             StronglySorted R (StableSort.insert before x s)).
  { intros x s Hs. induction Hs as [|y s Hs IH Hy]; simpl.
    - repeat constructor.
    - destruct (before y x) eqn:E.
      + constructor; [exact IH|].
        apply insert_Forall; [now apply Hyes | exact Hy].
      + constructor; [now constructor|].
        constructor; [now apply Hno|].
        eapply Forall_impl; [|exact Hy].
        intros z Hz. eapply Htrans; [apply Hno; exact E | exact Hz]. }
  induction l as [|x l IH]; simpl; [constructor | now apply Hins].
Qed.

(** Stability: elements that [before] does not separate keep the order
    they had in the input. *)
Lemma sort_stable (P : A -> A -> Prop) (l : list A) :
  StronglySorted P l ->
  StronglySorted (fun a b => before a b = false -> P a b)
                 (StableSort.sort before l).
Proof.
  induction 1 as [|x l Hl IH Hx]; simpl; [constructor|].
  assert (Hx' : Forall (P x) (StableSort.sort before l)).
  { eapply Permutation_Forall; [symmetry; apply sort_perm | exact Hx]. }
  clear Hx Hl. induction IH as [|y s Hs IHs Hy]; simpl.
  - repeat constructor.
  - inversion Hx' as [|? ? Hxy Hxs]; subst.
    destruct (before y x) eqn:E.
    + constructor; [now apply IHs|].
      apply insert_Forall; [intro; congruence | exact Hy].
    + constructor; [now constructor|].
      constructor; [intros _; exact Hxy|].
      eapply Forall_impl; [|exact Hxs]. intros z Hz _. exact Hz.
Qed.

End SortFacts.

Lemma sort_map {A B : Type} (f : A -> B) (before : A -> A -> bool)
    (before' : B -> B -> bool) :
  (forall a b, before' (f a) (f b) = before a b) ->
  forall l, StableSort.sort before' (map f l) = map f (StableSort.sort before l).
Proof.
  intros Hf.
  assert (Hins : forall x s, StableSort.insert before' (f x) (map f s)
                             = map f (StableSort.insert before x s)).
  { intros x s. induction s as [|y s IH]; simpl; [reflexivity|].
    rewrite Hf. destruct (before y x); simpl; [now rewrite IH | reflexivity]. }
  induction l as [|x l IH]; simpl; [reflexivity|].
  now rewrite IH, Hins.
Qed.

(* ------------------------------------------------------------------ *)
(** ** The engines *)

Lemma score_before_true (a b : DataRow * Q) :
  score_before a b = true -> score_ge a b.
Proof.
  unfold score_before, score_ge. intro H.
  apply negb_true_iff in H.
  destruct (Qlt_le_dec (snd b) (snd a)) as [Hlt|Hle].
  - now apply Qlt_le_weak.
  - apply Qle_bool_iff in Hle. congruence.
Qed.

Lemma score_before_false (a b : DataRow * Q) :
  score_before a b = false -> score_ge b a.
Proof.
  unfold score_before, score_ge. intro H.
  apply negb_false_iff in H. now apply Qle_bool_iff.
Qed.

Lemma score_ge_trans (a b c : DataRow * Q) :
  score_ge a b -> score_ge b c -> score_ge a c.
Proof. unfold score_ge. intros H1 H2. eapply Qle_trans; eassumption. Qed.

Lemma sort_score_sorted (l : list (DataRow * Q)) :
  StronglySorted score_ge (StableSort.sort score_before l).
Proof.
  apply sort_sorted;
    [exact score_before_true | exact score_before_false | exact score_ge_trans].
Qed.

Lemma stable_engine_ok : engine_ok stable_engine.
Proof.
  intro l. split; simpl; [apply sort_perm | apply sort_score_sorted].
Qed.

(* ------------------------------------------------------------------ *)
(** ** Running the effects *)

Lemma con_execute_run (con : DuckDBPyConnection) (command : SqlCommand)
    (query : string) (log : list Event) :
  con_execute con command query log
  = (Ok (execute (con_engine con) (con_index con) command query),
     log ++ [EvExecute command [query]]).
Proof. reflexivity. Qed.

Lemma bind_ok {A B} (m : M A) (k : A -> M B) (log log' : list Event) (a : A) :
  m log = (Ok a, log') -> bind m k log = k a log'.
Proof. unfold bind. now intros ->. Qed.

(* ------------------------------------------------------------------ *)
(** ** Where the loop stops *)

Lemma stop_after_le (limit : nat) (sizes : list nat) (count : nat) :
  stop_after limit count sizes <= List.length sizes.
Proof.
  revert count. induction sizes as [|s sizes IH]; intro count; simpl; [lia|].
  destruct (limit <? count + s); [lia|]. specialize (IH (count + s)). lia.
Qed.

Lemma stop_after_pos (limit : nat) (sizes : list nat) (count : nat) :
  sizes <> [] -> 0 < stop_after limit count sizes.
Proof.
  destruct sizes as [|s sizes]; [congruence|]. intros _. simpl.
  destruct (limit <? count + s); lia.
Qed.

(** The loop ends because the windows are exhausted or because the
    running count has gone strictly above the limit. *)
Lemma stop_after_reason (limit : nat) (sizes : list nat) (count : nat) :
  stop_after limit count sizes = List.length sizes
  \/ limit < count + list_sum (firstn (stop_after limit count sizes) sizes).
Proof.
  revert count. induction sizes as [|s sizes IH]; intro count; simpl; [now left|].
  destruct (limit <? count + s) eqn:E.
  - apply Nat.ltb_lt in E. right. simpl. lia.
  - destruct (IH (count + s)) as [H|H]; [left; lia | right; simpl; lia].
Qed.

(** It did not end earlier: after fewer windows the running count was
    still within the limit. *)
Lemma stop_after_minimal (limit : nat) (sizes : list nat) (count j : nat) :
  0 < j < stop_after limit count sizes ->
  count + list_sum (firstn j sizes) <= limit.
Proof.
  revert count j. induction sizes as [|s sizes IH]; intros count j; simpl; [lia|].
  destruct (limit <? count + s) eqn:E; [lia|].
  apply Nat.ltb_ge in E. intros [Hpos Hj].
  destruct j as [|j]; [lia|]. simpl.
  destruct j as [|j]; [simpl; lia|].
  specialize (IH (count + s) (S j)). lia.
Qed.

(* ------------------------------------------------------------------ *)
(** ** The windows *)

Lemma map_seq_sorted {Y : Type} (R : Y -> Y -> Prop) (f : nat -> Y) (a m : nat) :
  (forall i j, i < j -> R (f i) (f j)) ->
  StronglySorted R (map f (seq a m)).
Proof.
  intro Hf. revert a. induction m as [|m IH]; intro a; simpl; constructor.
  - apply IH.
  - apply Forall_forall. intros y Hy.
    apply in_map_iff in Hy as [j [<- Hj]]. apply in_seq in Hj. apply Hf. lia.
Qed.

Lemma py_range_ascending (n : Z) :
  StronglySorted Z.lt (py_range 0 n FTS_BATCH_SIZE).
Proof.
  unfold py_range. apply map_seq_sorted.
  intros i j Hij. unfold FTS_BATCH_SIZE. lia.
Qed.

Lemma py_range_empty (n : Z) : (n <= 0)%Z -> py_range 0 n FTS_BATCH_SIZE = [].
Proof.
  intro Hn. unfold py_range, FTS_BATCH_SIZE.
  replace (Z.to_nat ((n - 0 + 1000 - 1) / 1000)) with 0; [reflexivity|].
  assert ((n - 0 + 1000 - 1) / 1000 <= 0)%Z; [|lia].
  apply Z.lt_succ_r. apply Z.div_lt_upper_bound; lia.
Qed.

Lemma py_range_first (n : Z) :
  (0 < n)%Z -> exists later, py_range 0 n FTS_BATCH_SIZE = 0%Z :: later.
Proof.
  intro Hn. unfold py_range, FTS_BATCH_SIZE.
  assert (H : (1 <= (n - 0 + 1000 - 1) / 1000)%Z).
  { apply Z.div_le_lower_bound; lia. }
  destruct (Z.to_nat ((n - 0 + 1000 - 1) / 1000)) as [|m] eqn:E; [lia|].
  simpl. eexists. reflexivity.
Qed.

(* ------------------------------------------------------------------ *)
(** ** The loop of [_search_by_batches] *)

Lemma batches_loop_run (con : DuckDBPyConnection) (query : string)
    (offset length : nat) (indices : list Z) :
  forall (count : nat) (tables : list Table) (log : list Event),
    let k := stop_after (offset + length) count
               (map (fun i => num_rows (window_table con query i)) indices) in
    batches_loop con query offset length indices count tables log
    = (Ok (tables ++ map (window_table con query) (firstn k indices)),
       log ++ map (window_event query) (firstn k indices)).
Proof.
  induction indices as [|i later IH]; intros count tables log; simpl.
  - unfold ret. now rewrite !app_nil_r.
  - unfold bind at 1. rewrite con_execute_run.
    fold (window_table con query i). fold (window_event query i).
    destruct (offset + length <? count + num_rows (window_table con query i)).
    + reflexivity.
    + rewrite IH. simpl. now rewrite <- !app_assoc.
Qed.

Lemma search_by_batches_run (con : DuckDBPyConnection) (query : string)
    (offset length : nat) (num_original_rows : Z) (log : list Event) :
  let indices := py_range 0 num_original_rows FTS_BATCH_SIZE in
  let k := stop_after (offset + length) 0
             (map (fun i => num_rows (window_table con query i)) indices) in
  _search_by_batches num_original_rows con query offset length log
  = (after_loop (map (window_table con query) (firstn k indices)) offset length,
     log ++ map (window_event query) (firstn k indices)).
Proof.
  intros indices k. unfold _search_by_batches.
  erewrite bind_ok by apply batches_loop_run.
  fold indices. fold k. simpl app. unfold after_loop, bind, lift, ret.
  destruct (concat_tables _) as [t|e]; simpl; [|reflexivity].
  destruct (sort_by_descending t _) as [t'|e]; simpl; [|reflexivity].
  destruct (drop t' _) as [t''|e]; simpl; reflexivity.
Qed.

(* ------------------------------------------------------------------ *)
(** ** Tables of scored rows *)

Lemma schema_eqb_refl (s : list string) : schema_eqb s s = true.
Proof. unfold schema_eqb. destruct (list_eq_dec _ s s); congruence. Qed.

Lemma window_table_eq (con : DuckDBPyConnection) (query : string) (i : Z) :
  window_table con query i
  = mkTable (data_schema (con_index con) ++ [FTS_SCORE_COLUMN])
            (map (scored_values (con_index con))
                 (window_rows (con_index con) query i)).
Proof. reflexivity. Qed.

Lemma window_tables_rows (con : DuckDBPyConnection) (query : string)
    (indices : list Z) :
  flat_map rows (map (window_table con query) indices)
  = map (scored_values (con_index con))
        (flat_map (window_rows (con_index con) query) indices).
Proof.
  induction indices as [|i later IH]; simpl; [reflexivity|].
  now rewrite map_app, IH.
Qed.

Lemma concat_window_tables (con : DuckDBPyConnection) (query : string)
    (indices : list Z) :
  indices <> [] ->
  concat_tables (map (window_table con query) indices)
  = Ok (mkTable (data_schema (con_index con) ++ [FTS_SCORE_COLUMN])
          (map (scored_values (con_index con))
               (flat_map (window_rows (con_index con) query) indices))).
Proof.
  destruct indices as [|i later]; [congruence|]. intros _.
  rewrite <- window_tables_rows. unfold concat_tables. cbn [map].
  replace (forallb _ _) with true; [reflexivity|].
  symmetry. apply forallb_forall. intros t Ht.
  apply in_map_iff in Ht as [j [<- _]]. apply schema_eqb_refl.
Qed.

Lemma positions_absent (name : string) (names : list string) (i : nat) :
  ~ In name names -> positions name (names ++ [name]) i = [i + List.length names].
Proof.
  revert i. induction names as [|n names IH]; intros i Hn; simpl.
  - rewrite String.eqb_refl. f_equal. lia.
  - destruct (String.eqb_spec n name) as [->|Hne].
    + exfalso. apply Hn. now left.
    + rewrite IH; [f_equal; lia|]. intro H. apply Hn. now right.
Qed.

Lemma score_field_index (idx : Index) :
  index_wf idx ->
  get_field_index (data_schema idx ++ [FTS_SCORE_COLUMN]) FTS_SCORE_COLUMN
  = Some (S (List.length (columns idx))).
Proof.
  intro Hwf. unfold get_field_index. rewrite positions_absent; [reflexivity|].
  intros [H|H]; [discriminate H | exact (Hwf H)].
Qed.

Lemma row_values_length (idx : Index) (r : DataRow) :
  List.length (row_values idx r) = S (List.length (columns idx)).
Proof. unfold row_values. simpl. now rewrite length_map, length_seq. Qed.

Lemma score_cell (idx : Index) (rs : DataRow * Q) :
  cell (S (List.length (columns idx))) (scored_values idx rs) = VFloat (snd rs).
Proof.
  unfold cell, scored_values. rewrite <- (row_values_length idx (fst rs)).
  apply nth_middle.
Qed.

Lemma remove_nth_last {X : Type} (l : list X) (x : X) :
  remove_nth (List.length l) (l ++ [x]) = l.
Proof. induction l as [|y l IH]; simpl; [reflexivity | now rewrite IH]. Qed.

Lemma remove_score_cell (idx : Index) (rs : DataRow * Q) :
  remove_nth (S (List.length (columns idx))) (scored_values idx rs)
  = row_values idx (fst rs).
Proof.
  unfold scored_values. rewrite <- (row_values_length idx (fst rs)).
  apply remove_nth_last.
Qed.

Lemma remove_score_field (idx : Index) :
  remove_nth (S (List.length (columns idx))) (data_schema idx ++ [FTS_SCORE_COLUMN])
  = data_schema idx.
Proof.
  replace (S (List.length (columns idx))) with (List.length (data_schema idx))
    by reflexivity.
  apply remove_nth_last.
Qed.

(** Sorting, dropping the score and slicing a table of scored rows, in
    terms of the scored rows themselves. *)
Lemma sort_drop_slice (idx : Index) (accumulated : list (DataRow * Q))
    (offset length : nat) :
  index_wf idx ->
  exc_bind (sort_by_descending
              (mkTable (data_schema idx ++ [FTS_SCORE_COLUMN])
                       (map (scored_values idx) accumulated))
              FTS_SCORE_COLUMN) (fun sorted =>
  exc_bind (drop sorted FTS_SCORE_COLUMN) (fun dropped =>
  Ok (slice dropped offset length)))
  = Ok (mkTable (data_schema idx)
          (page_of idx offset length (StableSort.sort score_before accumulated))).
Proof.
  intro Hwf. unfold sort_by_descending, drop. cbn [schema rows].
  rewrite (score_field_index idx Hwf). cbn [exc_bind schema rows].
  rewrite (score_field_index idx Hwf). cbn [exc_bind]. unfold slice.
  cbn [schema rows]. rewrite remove_score_field. f_equal. f_equal.
  unfold page_of.
  rewrite (sort_map (scored_values idx) score_before).
  - rewrite !map_map, skipn_map, firstn_map.
    apply map_ext. intro rs. apply remove_score_cell.
  - intros a b. now rewrite !score_cell.
Qed.

(* ------------------------------------------------------------------ *)
(** ** The direct strategy *)

Lemma exclude_last {X : Type} (name : string) (names : list string)
    (row : list X) (x : X) :
  ~ In name names -> List.length row = List.length names ->
  exclude name (names ++ [name]) (row ++ [x]) = row.
Proof.
  unfold exclude. revert row.
  induction names as [|n names IH]; intros [|r row] Hn Hlen; simpl in *;
    try discriminate.
  - now rewrite String.eqb_refl.
  - destruct (String.eqb_spec n name) as [->|Hne]; simpl.
    + exfalso. apply Hn. now left.
    + f_equal. apply IH; [|lia]. intro H. apply Hn. now right.
Qed.

Lemma exclude_score_cell (idx : Index) (rs : DataRow * Q) :
  index_wf idx ->
  exclude FTS_SCORE_COLUMN (data_schema idx ++ [FTS_SCORE_COLUMN])
          (scored_values idx rs)
  = row_values idx (fst rs).
Proof.
  intro Hwf. apply exclude_last.
  - intros [H|H]; [discriminate H | exact (Hwf H)].
  - now rewrite row_values_length.
Qed.

Lemma exclude_score_field (idx : Index) :
  index_wf idx ->
  exclude FTS_SCORE_COLUMN (data_schema idx ++ [FTS_SCORE_COLUMN])
          (data_schema idx ++ [FTS_SCORE_COLUMN])
  = data_schema idx.
Proof.
  intro Hwf. apply exclude_last; [|reflexivity].
  intros [H|H]; [discriminate H | exact (Hwf H)].
Qed.

Lemma by_table_result (E : Engine) (idx : Index) (query : string)
    (offset length : nat) :
  index_wf idx ->
  execute E idx (FTS_BY_TABLE_COMMAND offset length) query
  = mkTable (data_schema idx)
      (page_of idx offset length (order_by_score_desc E (matches idx query))).
Proof.
  intro Hwf. unfold execute, exclude_column. cbn [schema rows].
  rewrite (exclude_score_field idx Hwf). f_equal.
  unfold page_of. rewrite !map_map. apply map_ext.
  intro rs. now apply exclude_score_cell.
Qed.

Lemma search_by_table_run (con : DuckDBPyConnection) (query : string)
    (offset length : nat) (log : list Event) :
  _search_by_table con query offset length log
  = (Ok (execute (con_engine con) (con_index con)
           (FTS_BY_TABLE_COMMAND offset length) query),
     log ++ [EvExecute (FTS_BY_TABLE_COMMAND offset length) [query]]).
Proof. reflexivity. Qed.

(* ------------------------------------------------------------------ *)
(** ** The chunked strategy *)

(** The stop rule of the loop, stated on the running count, and what
    the strategy then computes. *)
Lemma chunked_scan (con : DuckDBPyConnection) (query : string)
    (offset length : nat) (num_original_rows : Z) :
  let indices := py_range 0 num_original_rows FTS_BATCH_SIZE in
  exists k : nat,
    k <= List.length indices
    /\ (indices <> [] -> 0 < k)
    /\ (k = List.length indices
        \/ offset + length < running_count con query indices k)
    /\ (forall j, 0 < j < k -> running_count con query indices j <= offset + length)
    /\ forall log,
        _search_by_batches num_original_rows con query offset length log
        = (after_loop (map (window_table con query) (firstn k indices))
                      offset length,
           log ++ map (window_event query) (firstn k indices)).
Proof.
  intro indices.
  set (sizes := map (fun i => num_rows (window_table con query i)) indices).
  exists (stop_after (offset + length) 0 sizes).
  assert (Hcount : forall j, running_count con query indices j
                             = list_sum (firstn j sizes)).
  { intro j. unfold running_count, sizes. now rewrite firstn_map. }
  assert (Hlen : List.length sizes = List.length indices).
  { unfold sizes. apply length_map. }
  repeat split.
  - rewrite <- Hlen. apply stop_after_le.
  - intro Hne. apply stop_after_pos. unfold sizes.
    destruct indices; [congruence | discriminate].
  - rewrite Hcount, <- Hlen.
    destruct (stop_after_reason (offset + length) sizes 0) as [H|H];
      [now left | right; exact H].
  - intros j Hj. rewrite Hcount.
    apply (stop_after_minimal (offset + length) sizes 0 j Hj).
  - intro log. apply search_by_batches_run.
Qed.

(** With at least one window visited, the page is cut from the stable
    descending sort of the matching rows of the windows visited. *)
Lemma after_loop_page (con : DuckDBPyConnection) (query : string)
    (offset length : nat) (visited : list Z) :
  index_wf (con_index con) -> visited <> [] ->
  after_loop (map (window_table con query) visited) offset length
  = Ok (mkTable (data_schema (con_index con))
          (page_of (con_index con) offset length
             (StableSort.sort score_before
                (flat_map (window_rows (con_index con) query) visited)))).
Proof.
  intros Hwf Hne. unfold after_loop.
  rewrite (concat_window_tables con query visited Hne). cbn [exc_bind].
  now apply sort_drop_slice.
Qed.

Lemma firstn_nonempty {X : Type} (k : nat) (l : list X) :
  0 < k -> l <> [] -> firstn k l <> [].
Proof. destruct k, l; simpl; try lia; congruence. Qed.

(** Without a window to scan there is nothing to concatenate. *)
Lemma search_by_batches_without_windows (con : DuckDBPyConnection)
    (query : string) (offset length : nat) (num_original_rows : Z) :
  (num_original_rows <= 0)%Z ->
  run (_search_by_batches num_original_rows con query offset length)
  = (Raise (ArrowInvalid "Must pass at least one table"), []).
Proof.
  intro Hn. unfold run. rewrite search_by_batches_run.
  now rewrite (py_range_empty _ Hn).
Qed.

(* ------------------------------------------------------------------ *)
(** ** The coordinator *)

Lemma full_text_search_run (w : World) (idx : Index) (num_original_rows : Z)
    (fts_batches : bool) (location query : string) (offset length : nat)
    (ext : option string) :
  files w location = Some idx ->
  run (full_text_search w num_original_rows fts_batches location query
         offset length ext)
  = let con := mkCon (engine w) idx in
    let started := [EvConnect location; EvExecute FTS_COUNT_COMMAND [query]] in
    let strategy :=
      if fts_batches
      then _search_by_batches num_original_rows con query offset length started
      else _search_by_table con query offset length started in
    (exc_bind (fst strategy) (fun page =>
       Ok (VInt (Z.of_nat (List.length (matches idx query))), page)),
     snd strategy ++ [EvClose location]).
Proof.
  intro Hfile. unfold run, full_text_search, with_duckdb_connect.
  rewrite Hfile. cbn zeta. unfold bind at 1. rewrite con_execute_run.
  cbn [app]. unfold bind at 1. cbn [lift rows execute fetched_cell nth_error].
  cbv beta iota. unfold bind, ret.
  destruct fts_batches.
  - destruct (_search_by_batches _ _ _ _ _ _) as [[t|e] log]; reflexivity.
  - destruct (_search_by_table _ _ _ _ _) as [[t|e] log]; reflexivity.
Qed.

(* ------------------------------------------------------------------ *)
(** ** The matching rows *)

Lemma not_null_scored (idx : Index) (query : string) (rs : list DataRow) :
  map fst (where_score_is_not_null (scored idx query rs))
  = filter (has_score idx query) rs.
Proof.
  induction rs as [|r rs IH]; simpl; [reflexivity|].
  unfold has_score. destruct (match_bm25 idx (hf_index_id r) query); simpl;
    now rewrite IH.
Qed.

Lemma matches_rows (idx : Index) (query : string) :
  map fst (matches idx query) = filter (has_score idx query) (data idx).
Proof. apply not_null_scored. Qed.

Lemma matches_length (idx : Index) (query : string) :
  List.length (matches idx query)
  = List.length (filter (has_score idx query) (data idx)).
Proof. now rewrite <- matches_rows, length_map. Qed.

Lemma scored_rows_score (idx : Index) (query : string) (l : list DataRow)
    (rs : DataRow * Q) :
  In rs (where_score_is_not_null (scored idx query l)) ->
  match_bm25 idx (hf_index_id (fst rs)) query = Some (snd rs).
Proof.
  unfold where_score_is_not_null, scored. intro H.
  apply in_flat_map in H as [[r s] [Hin Hrs]].
  apply in_map_iff in Hin as [r' [Heq _]]. inversion Heq; subst. simpl in Hrs.
  destruct (match_bm25 idx (hf_index_id r) query) eqn:E; simpl in Hrs;
    [|contradiction].
  destruct Hrs as [<-|[]]. exact E.
Qed.

Lemma matches_score (idx : Index) (query : string) (rs : DataRow * Q) :
  In rs (matches idx query) ->
  match_bm25 idx (hf_index_id (fst rs)) query = Some (snd rs).
Proof. apply scored_rows_score. Qed.

Lemma accumulated_score (idx : Index) (query : string) (indices : list Z) :
  Forall (fun rs => match_bm25 idx (hf_index_id (fst rs)) query = Some (snd rs))
         (flat_map (window_rows idx query) indices).
Proof.
  apply Forall_forall. intros rs H. apply in_flat_map in H as [i [_ H]].
  now apply scored_rows_score in H.
Qed.

Lemma text_index_wf (rs : list DataRow) (scorer : Z -> string -> option Q) :
  index_wf (mkIndex ["text"] rs scorer).
Proof. intros [H|[]]. discriminate H. Qed.

Lemma running_count_rows (con : DuckDBPyConnection) (query : string)
    (indices : list Z) (j : nat) :
  running_count con query indices j
  = List.length (flat_map (window_rows (con_index con) query) (firstn j indices)).
Proof.
  unfold running_count. induction (firstn j indices) as [|i l IH]; simpl;
    [reflexivity|].
  rewrite length_app, IH. f_equal.
  unfold num_rows. rewrite window_table_eq. cbn [rows]. apply length_map.
Qed.

Lemma slice_length {X : Type} (offset length : nat) (l : list X) :
  List.length (firstn length (skipn offset l))
  = Nat.min length (List.length l - offset).
Proof. now rewrite length_firstn, length_skipn. Qed.

(* ------------------------------------------------------------------ *)
(** ** Prefixes of sorted lists *)

Section SortedFacts.
Context {X : Type} (R : X -> X -> Prop).

Lemma Forall_firstn' (P : X -> Prop) (n : nat) (l : list X) :
  Forall P l -> Forall P (firstn n l).
Proof.
  intro Hl. revert n. induction Hl as [|x l Hx Hl IH]; intros [|n]; simpl;
    constructor; auto.
Qed.

Lemma sorted_firstn (n : nat) (l : list X) :
  StronglySorted R l -> StronglySorted R (firstn n l).
Proof.
  intro Hl. revert n. induction Hl as [|x l Hl IH Hx]; intros [|n]; simpl;
    constructor; auto using Forall_firstn'.
Qed.

End SortedFacts.

(* ------------------------------------------------------------------ *)
(** ** Removing a column *)

Lemma in_combine_same {X : Type} (l : list X) (a b : X) :
  In (a, b) (combine l l) -> a = b.
Proof.
  induction l as [|x l IH]; simpl; [tauto|].
  intros [H|H]; [congruence | now apply IH].
Qed.

Lemma exclude_not_in (name : string) (names : list string) :
  ~ In name (exclude name names names).
Proof.
  unfold exclude. intro H. apply in_map_iff in H as [[a b] [Hb H]].
  simpl in Hb. subst b. apply filter_In in H as [H Hne]. simpl in Hne.
  apply in_combine_same in H. subst a. now rewrite String.eqb_refl in Hne.
Qed.

Lemma positions_none (name : string) (names : list string) (k : nat) :
  positions name names k = [] -> ~ In name names.
Proof.
  revert k. induction names as [|n names IH]; intros k H; simpl in *; [tauto|].
  destruct (String.eqb_spec n name) as [->|Hne]; [discriminate|].
  intros [Hn|Hn]; [congruence | exact (IH _ H Hn)].
Qed.

Lemma positions_single (name : string) (names : list string) (k i : nat) :
  positions name names k = [i] ->
  k <= i /\ ~ In name (remove_nth (i - k) names).
Proof.
  revert k. induction names as [|n names IH]; intros k H; simpl in *;
    [discriminate|].
  destruct (String.eqb_spec n name) as [->|Hne].
  - injection H as -> H. split; [lia|]. rewrite Nat.sub_diag.
    now apply positions_none in H.
  - apply IH in H as [Hle Hnot]. split; [lia|].
    replace (i - k) with (S (i - S k)) by lia.
    intros [Hn|Hn]; [congruence | exact (Hnot Hn)].
Qed.

Lemma drop_not_in (t t' : Table) (name : string) :
  drop t name = Ok t' -> ~ In name (schema t').
Proof.
  unfold drop, get_field_index.
  destruct (positions name (schema t) 0) as [|i [|? ?]] eqn:E;
    try discriminate.
  intro H. injection H as <-. cbn [schema].
  apply positions_single in E as [_ E]. now rewrite Nat.sub_0_r in E.
Qed.

Lemma after_loop_schema (tables : list Table) (offset length : nat) (t : Table) :
  after_loop tables offset length = Ok t -> ~ In FTS_SCORE_COLUMN (schema t).
Proof.
  unfold after_loop.
  destruct (concat_tables tables) as [c|e]; [|discriminate]. cbn [exc_bind].
  destruct (sort_by_descending c FTS_SCORE_COLUMN) as [s|e]; [|discriminate].
  cbn [exc_bind].
  destruct (drop s FTS_SCORE_COLUMN) as [d|e] eqn:E; [|discriminate].
  cbn [exc_bind]. intro H. injection H as <-. cbn [slice schema].
  now apply drop_not_in in E.
Qed.

Lemma bind_lift_ok {A B} (r : Exc A) (a : A) (k : A -> M B) (log : list Event) :
  r = Ok a -> bind (lift r) k log = k a log.
Proof. now intros ->. Qed.

(* ------------------------------------------------------------------ *)
(** ** When the windows visited hold every match once *)

Lemma flat_map_app_perm {X Y : Type} (f g : X -> list Y) (l : list X) :
  Permutation (flat_map (fun i => f i ++ g i) l) (flat_map f l ++ flat_map g l).
Proof.
  induction l as [|a l IH]; simpl; [constructor|].
  rewrite IH, <- !app_assoc. apply Permutation_app_head.
  rewrite !app_assoc. apply Permutation_app_tail, Permutation_app_comm.
Qed.

Lemma flat_map_selected {X Y : Type} (p : X -> bool) (y : Y) (l : list X) :
  flat_map (fun i => if p i then [y] else []) l
  = repeat y (List.length (filter p l)).
Proof.
  induction l as [|a l IH]; simpl; [reflexivity|].
  destruct (p a); simpl; now rewrite IH.
Qed.

Lemma flat_map_nothing {X Y : Type} (l : list X) :
  flat_map (fun _ : X => @nil Y) l = [].
Proof. induction l; simpl; auto. Qed.

Lemma accumulated_perm (idx : Index) (query : string) (visited : list Z)
    (l : list DataRow) :
  (forall r, In r l -> has_score idx query r = true ->
             List.length (filter (covers r) visited) = 1) ->
  Permutation
    (flat_map (fun i => where_score_is_not_null
                          (scored idx query
                             (filter (between i (i + FTS_BATCH_SIZE)) l)))
              visited)
    (where_score_is_not_null (scored idx query l)).
Proof.
  induction l as [|r l IH]; intro Hcov.
  - simpl. now rewrite flat_map_nothing.
  - set (mine := match match_bm25 idx (hf_index_id r) query with
                 | Some s => [(r, s)]
                 | None => []
                 end).
    rewrite (flat_map_ext _
               (fun i => (if covers r i then mine else [])
                         ++ where_score_is_not_null
                              (scored idx query
                                 (filter (between i (i + FTS_BATCH_SIZE)) l)))).
    + rewrite flat_map_app_perm. cbn [scored map where_score_is_not_null flat_map snd fst].
      fold mine. apply Permutation_app.
      * subst mine. specialize (Hcov r (or_introl eq_refl)).
        unfold has_score in Hcov.
        destruct (match_bm25 idx (hf_index_id r) query) as [s|].
        -- rewrite flat_map_selected, Hcov by reflexivity. reflexivity.
        -- rewrite (flat_map_ext _ (fun _ => [])), flat_map_nothing;
             [reflexivity|]. intro i. now destruct (covers r i).
      * apply IH. intros r' Hr'. apply Hcov. now right.
    + intro i. unfold covers. cbn [filter].
      destruct (between i (i + FTS_BATCH_SIZE) r); reflexivity.
Qed.

Lemma accumulated_all_matches (idx : Index) (query : string) (indices : list Z) :
  covered_once idx query indices ->
  Permutation (flat_map (window_rows idx query) indices) (matches idx query).
Proof. intro H. unfold window_rows, matches. now apply accumulated_perm. Qed.

Lemma filter_of_map {X Y : Type} (p : Y -> bool) (f : X -> Y) (l : list X) :
  filter p (map f l) = map f (filter (fun x => p (f x)) l).
Proof.
  induction l as [|a l IH]; simpl; [reflexivity|].
  destruct (p (f a)); simpl; now rewrite IH.
Qed.

Lemma filter_seq_none (p : nat -> bool) (a m : nat) :
  (forall k, a <= k < a + m -> p k = false) -> filter p (seq a m) = [].
Proof.
  revert a. induction m as [|m IH]; intros a H; simpl; [reflexivity|].
  rewrite (H a) by lia. apply IH. intros k Hk. apply H. lia.
Qed.

Lemma filter_seq_single (p : nat -> bool) (k0 a m : nat) :
  a <= k0 < a + m ->
  (forall k, a <= k < a + m -> (p k = true <-> k = k0)) ->
  filter p (seq a m) = [k0].
Proof.
  revert a. induction m as [|m IH]; intros a Hk0 H; [lia|]. simpl.
  destruct (Nat.eq_dec a k0) as [->|Hne].
  - rewrite (proj2 (H k0 Hk0) eq_refl). f_equal.
    apply filter_seq_none. intros k Hk.
    destruct (p k) eqn:E; [|reflexivity].
    apply H in E; lia.
  - destruct (p a) eqn:E.
    + apply H in E; lia.
    + apply IH; [lia|]. intros k Hk. apply H. lia.
Qed.

(** A row whose identifier is below [num_original_rows] and is not the
    first identifier of a later window is asked for by one window. *)
Lemma py_range_covers_once (n : Z) (r : DataRow) :
  (0 <= hf_index_id r < n)%Z ->
  hf_index_id r = 0%Z \/ (hf_index_id r mod FTS_BATCH_SIZE <> 0)%Z ->
  List.length (filter (covers r) (py_range 0 n FTS_BATCH_SIZE)) = 1.
Proof.
  intros Hid Hoff. unfold py_range, FTS_BATCH_SIZE in *.
  rewrite filter_of_map, length_map.
  rewrite (filter_seq_single _ (Z.to_nat (hf_index_id r / 1000))); [reflexivity| |].
  - split; [lia|]. simpl. apply Z2Nat.inj_lt.
    + apply Z.div_pos; lia.
    + apply Z.div_pos; lia.
    + Z.div_mod_to_equations. lia.
  - intros k _. unfold covers, between, FTS_BATCH_SIZE.
    rewrite andb_true_iff, !Z.leb_le. split.
    + intros [H1 H2]. apply Nat2Z.inj. rewrite Z2Nat.id by (apply Z.div_pos; lia).
      Z.div_mod_to_equations. lia.
    + intros ->. rewrite Z2Nat.id by (apply Z.div_pos; lia).
      Z.div_mod_to_equations. lia.
Qed.

(* ================================================================== *)
(** * The claims *)

(** C10. [IntColumn.get_cell_value] returns its argument unchanged when
    the argument is [None] or of exact type [int], and raises
    [CellTypeError] when it is of any other type; there is no third
    outcome.  A [bool] and a [float] are among the values refused. *)
Theorem get_cell_value_outcome :
  forall (dataset_name config_name split_name : string) (row_idx : Z)
         (value : PyValue),
    ((IntColumn.get_cell_value dataset_name config_name split_name row_idx value
      = Ok value
      /\ (value = PyNone \/ py_type value = TInt))
     \/
     (IntColumn.get_cell_value dataset_name config_name split_name row_idx value
      = Raise (CellTypeError "value type mismatch")
      /\ value <> PyNone /\ py_type value <> TInt))
    /\ (forall b, IntColumn.get_cell_value dataset_name config_name split_name
                    row_idx (PyBool b)
                  = Raise (CellTypeError "value type mismatch"))
    /\ (forall q, IntColumn.get_cell_value dataset_name config_name split_name
                    row_idx (PyFloat q)
                  = Raise (CellTypeError "value type mismatch")).
Proof.
  intros d c s i value. split; [|split; reflexivity].
  destruct value; cbn;
    try (left; split; [reflexivity | auto; fail]);
    right; (split; [reflexivity | split; discriminate]).
Qed.

(** C6. With [num_original_rows = 0] the chunked strategy issues no
    window query, and then hands [pa.concat_tables] an empty list, which
    raises [ArrowInvalid]: no empty table is returned. *)
Theorem search_by_batches_without_rows :
  forall (con : DuckDBPyConnection) (query : string) (offset length : nat),
    run (_search_by_batches 0 con query offset length)
    = (Raise (ArrowInvalid "Must pass at least one table"), []).
Proof. intros. reflexivity. Qed.

(** C4, as the code has it.  On the index of the example (2500 rows;
    rows 50, 1200, 2100 and 900 match with scores 9.1, 8.7, 9.5 and
    9.5), with [offset = 0] and [length = 2], the chunked strategy
    queries the windows starting at 0 and at 1000, stops there because
    three matches exceed [offset + length], and returns rows 900 and
    50. *)
Theorem example_chunked_page :
  run (_search_by_batches 2500 (con_of stable_engine example_index)
         "query" 0 2)
  = (Ok (mkTable ["__hf_index_id"; "text"]
           [[VInt 900; VStr "doc"]; [VInt 50; VStr "doc"]]),
     [EvExecute (FTS_BY_BATCHES_COMMAND 0 1000) ["query"];
      EvExecute (FTS_BY_BATCHES_COMMAND 1000 2000) ["query"]]).
Proof. vm_compute. reflexivity. Qed.

(** C4 fails as stated: the page of the example is not rows 900 and
    2100. *)
Lemma example_chunked_page_is_not_900_2100 :
  fst (run (_search_by_batches 2500 (con_of stable_engine example_index)
              "query" 0 2))
  <> Ok (mkTable ["__hf_index_id"; "text"]
           [[VInt 900; VStr "doc"]; [VInt 2100; VStr "doc"]]).
Proof. vm_compute. discriminate. Qed.

(** C5.  A window is queried with [BETWEEN index AND index + 1000],
    which includes both bounds: a row whose identifier is the start of
    the next window belongs to two windows.  On an index of 1001 rows
    in which only row 1000 matches, that row is returned twice. *)
Theorem windows_share_their_boundary :
  (forall (index : Z) (r : DataRow),
      hf_index_id r = (index + FTS_BATCH_SIZE)%Z ->
      between index (index + FTS_BATCH_SIZE) r = true
      /\ between (index + FTS_BATCH_SIZE)
                 (index + FTS_BATCH_SIZE + FTS_BATCH_SIZE) r = true)
  /\ List.length (matches boundary_index "query") = 1
  /\ run (_search_by_batches 1001 (con_of stable_engine boundary_index)
            "query" 0 2)
     = (Ok (mkTable ["__hf_index_id"; "text"]
              [[VInt 1000; VStr "doc"]; [VInt 1000; VStr "doc"]]),
        [EvExecute (FTS_BY_BATCHES_COMMAND 0 1000) ["query"];
         EvExecute (FTS_BY_BATCHES_COMMAND 1000 2000) ["query"]]).
Proof.
  split; [|split; vm_compute; reflexivity].
  intros index r Hr. unfold between, FTS_BATCH_SIZE in *. rewrite Hr.
  split; apply andb_true_iff; split; apply Z.leb_le; lia.
Qed.

Lemma windows_share_their_boundary_witness :
  between 0 (0 + FTS_BATCH_SIZE) (mkRow 1000 []) = true
  /\ between (0 + FTS_BATCH_SIZE) (0 + FTS_BATCH_SIZE + FTS_BATCH_SIZE)
             (mkRow 1000 []) = true.
Proof.
  apply (proj1 windows_share_their_boundary 0%Z (mkRow 1000 [])). reflexivity.
Defined.

(** C2. Whichever strategy is chosen, [full_text_search] first runs the
    count query on the whole index, once, and the total it returns is
    the number of rows of [data] that have a non-null score for the
    query.  The direct strategy always returns that total; the chunked
    strategy returns it whenever it returns a page, which it does as
    soon as there is a window to scan. *)
Theorem total_matches_exact :
  forall (w : World) (idx : Index) (num_original_rows : Z) (fts_batches : bool)
         (location query : string) (offset length : nat) (ext : option string),
    files w location = Some idx ->
    let count :=
      VInt (Z.of_nat (List.length (filter (has_score idx query) (data idx)))) in
    let outcome :=
      run (full_text_search w num_original_rows fts_batches location query
             offset length ext) in
    (exists later,
        snd outcome
        = EvConnect location :: EvExecute FTS_COUNT_COMMAND [query] :: later
        /\ forall parameters, ~ In (EvExecute FTS_COUNT_COMMAND parameters) later)
    /\ (forall total page, fst outcome = Ok (total, page) -> total = count)
    /\ (fts_batches = false -> exists page, fst outcome = Ok (count, page))
    /\ (fts_batches = true -> index_wf idx -> (0 < num_original_rows)%Z ->
        exists page, fst outcome = Ok (count, page)).
Proof.
  intros w idx n fts location query offset length ext Hfile count outcome.
  subst outcome count.
  rewrite (full_text_search_run w idx n fts location query offset length ext Hfile).
  rewrite <- matches_length. cbv zeta.
  destruct fts.
  - destruct (chunked_scan (mkCon (engine w) idx) query offset length n)
      as (k & _ & Hpos & _ & _ & Hrun).
    rewrite Hrun. cbn [fst snd]. repeat split.
    + eexists. split; [reflexivity|].
      intros parameters H. apply in_app_or in H as [H|[H|[]]]; [|discriminate H].
      apply in_map_iff in H as [i [H _]]. discriminate H.
    + intros total page H.
      destruct (after_loop _ _ _); simpl in H; congruence.
    + discriminate.
    + intros _ Hwf Hn. destruct (py_range_first n Hn) as [later Hrange].
      rewrite after_loop_page.
      * eexists. reflexivity.
      * exact Hwf.
      * apply firstn_nonempty; [apply Hpos|]; rewrite Hrange; discriminate.
  - rewrite search_by_table_run. cbn [fst snd exc_bind]. repeat split.
    + eexists. split; [reflexivity|].
      intros parameters [H|[H|[]]]; discriminate H.
    + intros total page H. congruence.
    + intros _. eexists. reflexivity.
    + discriminate.
Qed.

Lemma total_matches_exact_witness :
  exists page,
    fst (run (full_text_search
                (world_of stable_engine "index.duckdb" tied_index)
                2 true "index.duckdb" "query" 0 2 None))
    = Ok (VInt 2, page).
Proof.
  refine (proj2 (proj2 (proj2
            (total_matches_exact
               (world_of stable_engine "index.duckdb" tied_index)
               tied_index 2 true "index.duckdb" "query" 0 2 None
               eq_refl))) eq_refl _ eq_refl).
  apply text_index_wf.
Defined.

(** C3. The chunked strategy queries the windows in ascending order of
    their first row index, and only a prefix of them: it stops after
    the first window at which the running count of matched rows is
    strictly above [offset + length], or when no window is left.  What
    it returns is computed afterwards from everything accumulated: the
    tables of the windows visited are concatenated, sorted by
    descending score, stripped of the score, and only then sliced at
    [offset, offset + length).  The sorted sequence holds the rows
    accumulated, each with its relevance score, by descending score. *)
Theorem chunked_scan_order :
  forall (con : DuckDBPyConnection) (query : string) (offset length : nat)
         (num_original_rows : Z),
    let indices := py_range 0 num_original_rows FTS_BATCH_SIZE in
    let outcome :=
      run (_search_by_batches num_original_rows con query offset length) in
    StronglySorted Z.lt indices
    /\ exists k : nat,
        let accumulated :=
          flat_map (window_rows (con_index con) query) (firstn k indices) in
        let sorted := StableSort.sort score_before accumulated in
        k <= List.length indices
        /\ (k = List.length indices
            \/ offset + length < running_count con query indices k)
        /\ (forall j, 0 < j < k ->
                      running_count con query indices j <= offset + length)
        /\ snd outcome = map (window_event query) (firstn k indices)
        /\ fst outcome
           = after_loop (map (window_table con query) (firstn k indices))
                        offset length
        /\ List.length accumulated = running_count con query indices k
        /\ Forall (fun rs => match_bm25 (con_index con) (hf_index_id (fst rs)) query
                             = Some (snd rs)) accumulated
        /\ Permutation sorted accumulated
        /\ StronglySorted score_ge sorted
        /\ (index_wf (con_index con) -> (0 < num_original_rows)%Z ->
            fst outcome
            = Ok (mkTable (data_schema (con_index con))
                    (firstn length
                       (skipn offset
                          (map (row_values (con_index con))
                             (map fst sorted)))))).
Proof.
  intros con query offset length n indices outcome.
  split; [apply py_range_ascending|].
  destruct (chunked_scan con query offset length n)
    as (k & Hle & Hpos & Hreason & Hmin & Hrun).
  fold indices in Hle, Hpos, Hreason, Hmin, Hrun.
  exists k. cbv zeta. subst outcome. unfold run. rewrite Hrun. cbn [fst snd app].
  split; [exact Hle|]. split; [exact Hreason|]. split; [exact Hmin|].
  split; [reflexivity|]. split; [reflexivity|].
  split; [symmetry; apply running_count_rows|].
  split; [apply accumulated_score|].
  split; [apply sort_perm|].
  split; [apply sort_score_sorted|].
  intros Hwf Hn. destruct (py_range_first n Hn) as [later Hrange].
  rewrite after_loop_page.
  - unfold page_of. now rewrite !skipn_map, !firstn_map.
  - exact Hwf.
  - apply firstn_nonempty; [apply Hpos|]; unfold indices; rewrite Hrange;
      discriminate.
Qed.

Lemma chunked_scan_order_witness :
  exists k : nat,
    StronglySorted score_ge
      (StableSort.sort score_before
         (flat_map (window_rows tied_index "query")
            (firstn k (py_range 0 2 FTS_BATCH_SIZE))))
    /\ fst (run (_search_by_batches 2 (con_of stable_engine tied_index)
                   "query" 0 2))
       = Ok (mkTable (data_schema tied_index)
               (firstn 2
                  (skipn 0
                     (map (row_values tied_index)
                        (map fst
                           (StableSort.sort score_before
                              (flat_map (window_rows tied_index "query")
                                 (firstn k (py_range 0 2 FTS_BATCH_SIZE))))))))).
Proof.
  destruct (chunked_scan_order (con_of stable_engine tied_index)
              "query" 0 2 2)
    as (_ & k & _ & _ & _ & _ & _ & _ & _ & _ & Hsorted & Hpage).
  exists k. split; [exact Hsorted|].
  apply Hpage; [apply text_index_wf | reflexivity].
Defined.




(** C9. The table that a strategy returns has no [__hf_fts_score]
    column: the direct strategy's projection excludes it, and the
    chunked strategy drops it after the sort.  Over an index that does
    not itself use the reserved name, with a window to scan, the
    chunked strategy does return a table, whose columns are those of
    [data]. *)
Theorem score_column_not_returned :
  forall (con : DuckDBPyConnection) (query : string) (offset length : nat)
         (num_original_rows : Z),
    (exists t, fst (run (_search_by_table con query offset length)) = Ok t
               /\ ~ In FTS_SCORE_COLUMN (schema t))
    /\ (forall t,
           fst (run (_search_by_batches num_original_rows con query
                       offset length)) = Ok t ->
           ~ In FTS_SCORE_COLUMN (schema t))
    /\ (index_wf (con_index con) -> (0 < num_original_rows)%Z ->
        exists t,
          fst (run (_search_by_batches num_original_rows con query
                      offset length)) = Ok t
          /\ schema t = data_schema (con_index con)
          /\ Forall (fun row => List.length row = List.length (schema t))
                    (rows t)).
Proof.
  intros con query offset length n. repeat split.
  - eexists. split; [reflexivity|]. apply exclude_not_in.
  - intros t. unfold run. rewrite search_by_batches_run. cbn [fst].
    apply after_loop_schema.
  - intros Hwf Hn.
    destruct (chunked_scan con query offset length n)
      as (k & _ & Hpos & _ & _ & Hrun).
    destruct (py_range_first n Hn) as [later Hrange].
    unfold run. rewrite Hrun. cbn [fst]. rewrite after_loop_page.
    + eexists. split; [reflexivity|]. cbn [schema rows]. split; [reflexivity|].
      unfold page_of. rewrite map_map. apply Forall_map, Forall_forall.
      intros rs _. apply row_values_length.
    + exact Hwf.
    + apply firstn_nonempty; [apply Hpos|]; rewrite Hrange; discriminate.
Qed.

Lemma score_column_not_returned_witness :
  exists t,
    fst (run (_search_by_batches 2 (con_of stable_engine tied_index)
                "query" 0 2)) = Ok t
    /\ schema t = data_schema tied_index
    /\ Forall (fun row => List.length row = List.length (schema t)) (rows t).
Proof.
  apply (proj2 (proj2 (score_column_not_returned
                         (con_of stable_engine tied_index) "query" 0 2 2))).
  - apply text_index_wf.
  - reflexivity.
Defined.

(** C8. When the parameters are valid, the caller is authorised and the
    cache entry of the index has status 200, a [has_fts] that is not
    [True] makes the endpoint raise [SearchFeatureNotAvailableError],
    which it answers as an API error; nothing was downloaded, opened or
    queried. *)
Theorem search_refused_without_fts :
  forall (c : Collaborators) (s : Settings) (w : World) (request : Request)
         (dataset config split query : string) (offset length : nat)
         (cache_entry content : Dict) (revision has_fts : PyValue),
    get_request_parameter c request "dataset" = Ok dataset ->
    get_request_parameter c request "config" = Ok config ->
    get_request_parameter c request "split" = Ok split ->
    get_request_parameter c request "query" = Ok query ->
    get_request_parameter_offset c request = Ok offset ->
    get_request_parameter_length c request = Ok length ->
    auth_check c dataset request = Ok tt ->
    get_cache_entry_from_duckdb_index_job c dataset config split = Ok cache_entry ->
    dict_get cache_entry "dataset_git_revision" = Ok revision ->
    dict_get cache_entry "http_status" = Ok (PyInt 200) ->
    dict_get cache_entry "content" = Ok (PyDict content) ->
    dict_get content "has_fts" = Ok has_fts ->
    has_fts <> PyBool true ->
    run (search_endpoint c s w request)
    = (Ok (JsonApiErrorResponse
             (ApiErrorOf (SearchFeatureNotAvailableError
                            "The split does not have search feature enabled."))
             (max_age_short s) revision),
       []).
Proof.
  intros c s w request dataset config split query offset length cache_entry
         content revision has_fts Hd Hc Hs Hq Ho Hl Ha He Hr Hst Hco Hf Hnot.
  unfold run, search_endpoint, try_except.
  rewrite (bind_lift_ok _ _ _ _ Hd), (bind_lift_ok _ _ _ _ Hc),
    (bind_lift_ok _ _ _ _ Hs), (bind_lift_ok _ _ _ _ Hq),
    (bind_lift_ok _ _ _ _ Ho), (bind_lift_ok _ _ _ _ Hl),
    (bind_lift_ok _ _ _ _ Ha), (bind_lift_ok _ _ _ _ He),
    (bind_lift_ok _ _ _ _ Hr).
  unfold search_with_cache_entry.
  rewrite (bind_lift_ok _ _ _ _ Hst).
  change (is_not_http_ok (PyInt 200)) with false. cbv iota.
  rewrite Hco. cbn [exc_bind as_dict].
  rewrite (bind_lift_ok _ _ _ _ eq_refl), (bind_lift_ok _ _ _ _ Hf).
  replace (is_True has_fts) with false.
  - reflexivity.
  - destruct has_fts as [| | [|] | | | | |]; try reflexivity. congruence.
Qed.

Lemma search_refused_without_fts_witness :
  run (search_endpoint (sample_collaborators (PyBool false)) sample_settings
         (world_of stable_engine "index.duckdb" example_index) sample_request)
  = (Ok (JsonApiErrorResponse
           (ApiErrorOf (SearchFeatureNotAvailableError
                          "The split does not have search feature enabled."))
           10 (PyStr "refs/convert/duckdb")),
     []).
Proof.
  apply (search_refused_without_fts
           (sample_collaborators (PyBool false)) sample_settings
           (world_of stable_engine "index.duckdb" example_index) sample_request
           "wikimedia/wikipedia" "default" "train" "query" 0 2
           (sample_cache_entry (PyBool false))
           [("has_fts", PyBool false);
            ("url", PyStr "https://hub/index.duckdb");
            ("filename", PyStr "index.duckdb");
            ("num_rows", PyInt 2500)]
           (PyStr "refs/convert/duckdb") (PyBool false));
    try reflexivity.
  discriminate.
Defined.

(** The same deployment with [has_fts] set: the index is downloaded,
    opened, counted and scanned in windows, and the page is answered. *)
Example search_answered_with_fts :
  run (search_endpoint (sample_collaborators (PyBool true)) sample_settings
         (world_of stable_engine "index.duckdb" example_index) sample_request)
  = (Ok (JsonOkResponse
           (mkPaginatedResponse
              (PyList [PyStr "text"])
              (PyList [PyList [PyInt 900; PyStr "doc"];
                       PyList [PyInt 50; PyStr "doc"]])
              (VInt 4) 100 false)
           120 (PyStr "refs/convert/duckdb")),
     [EvDownload (PyStr "index.duckdb");
      EvConnect "index.duckdb";
      EvExecute FTS_COUNT_COMMAND ["query"];
      EvExecute (FTS_BY_BATCHES_COMMAND 0 1000) ["query"];
      EvExecute (FTS_BY_BATCHES_COMMAND 1000 2000) ["query"];
      EvClose "index.duckdb"]).
Proof. vm_compute. reflexivity. Qed.

(** The row count of the cache entry is read by the chunked strategy
    only.  When it is not an integer, a dataset that is searched
    directly is answered all the same; a dataset that is scanned in
    windows is answered with [UnexpectedApiError], after the index was
    opened and counted and the connection closed. *)
Example search_without_row_count_direct :
  run (search_endpoint uncounted_collaborators sample_settings
         (world_of stable_engine "index.duckdb" tied_index) other_request)
  = (Ok (JsonOkResponse
           (mkPaginatedResponse
              (PyList [PyStr "text"])
              (PyList [PyList [PyInt 0; PyStr "doc"];
                       PyList [PyInt 1; PyStr "doc"]])
              (VInt 2) 100 false)
           120 (PyStr "refs/convert/duckdb")),
     [EvDownload (PyStr "index.duckdb");
      EvConnect "index.duckdb";
      EvExecute FTS_COUNT_COMMAND ["query"];
      EvExecute (FTS_BY_TABLE_COMMAND 0 2) ["query"];
      EvClose "index.duckdb"]).
Proof. vm_compute. reflexivity. Qed.

Example search_without_row_count_chunked :
  run (search_endpoint uncounted_collaborators sample_settings
         (world_of stable_engine "index.duckdb" tied_index) sample_request)
  = (Ok (JsonApiErrorResponse
           (UnexpectedApiError "Unexpected error." (OtherException "TypeError"))
           10 (PyStr "refs/convert/duckdb")),
     [EvDownload (PyStr "index.duckdb");
      EvConnect "index.duckdb";
      EvExecute FTS_COUNT_COMMAND ["query"];
      EvClose "index.duckdb"]).
Proof. vm_compute. reflexivity. Qed.

(* ================================================================== *)
(** * Further properties of the code *)

(* ------------------------------------------------------------------ *)
(** ** Inference of an integer column *)

(** The values that [check_value] lets through. *)
Lemma check_value_ok (value : PyValue) :
  IntColumn.check_value value = Ok tt
  <-> value = PyNone \/ py_type value = TInt.
Proof.
  destruct value; cbn; split; intro H; try reflexivity; auto;
    try discriminate; destruct H; discriminate.
Qed.

Lemma check_value_raises (value : PyValue) :
  IntColumn.check_value value <> Ok tt ->
  IntColumn.check_value value = Raise (CellTypeError "value type mismatch").
Proof. destruct value; cbn; intro H; congruence. Qed.

Lemma check_each_done (values : list PyValue) :
  check_each values = Done tt
  <-> Forall (fun v => v = PyNone \/ py_type v = TInt) values.
Proof.
  induction values as [|v values IH]; simpl.
  - split; [constructor | reflexivity].
  - split.
    + intro H. destruct (IntColumn.check_value v) as [[]|e] eqn:E; simpl in H;
        [|discriminate].
      constructor; [now apply check_value_ok | now apply IH].
    + intro H. inversion H as [|? ? Hv Hvs]; subst.
      apply check_value_ok in Hv. rewrite Hv. simpl. now apply IH.
Qed.

Lemma check_each_failed (values : list PyValue) :
  check_each values <> Done tt ->
  check_each values
  = Failed (CellException (CellTypeError "value type mismatch")).
Proof.
  induction values as [|v values IH]; simpl; [congruence|].
  destruct (IntColumn.check_value v) as [[]|e] eqn:E; simpl.
  - exact IH.
  - intros _. rewrite check_value_raises in E by congruence. congruence.
Qed.

Lemma forallb_is_none (values : list PyValue) :
  forallb is_none values = true <-> Forall (fun v => v = PyNone) values.
Proof.
  rewrite forallb_forall, Forall_forall. split; intros H v Hv.
  - specialize (H v Hv). now destruct v.
  - now rewrite (H v Hv).
Qed.

Lemma int_or_none_dec (v : PyValue) :
  {v = PyNone \/ py_type v = TInt} + {~ (v = PyNone \/ py_type v = TInt)}.
Proof.
  destruct v; try (left; auto; fail); right; intros [H|H]; discriminate H.
Qed.

(** [check_values] has three outcomes.  It returns when every value is
    [None] or an [int] and, unless the list is empty, at least one is an
    [int].  It raises [CellTypeError] when some value is neither, also
    when all the others are [None].  It raises [ColumnInferenceError]
    when the list is not empty and holds only [None]. *)
Theorem check_values_outcome :
  forall values : list PyValue,
    (check_values values = Done tt
     /\ Forall (fun v => v = PyNone \/ py_type v = TInt) values
     /\ (values = [] \/ Exists (fun v => py_type v = TInt) values))
    \/ (check_values values
        = Failed (CellException (CellTypeError "value type mismatch"))
        /\ Exists (fun v => v <> PyNone /\ py_type v <> TInt) values)
    \/ (check_values values
        = Failed (ColumnInferenceError
                    "all the values are None, cannot infer column type")
        /\ values <> []
        /\ Forall (fun v => v = PyNone) values).
Proof.
  intro values. unfold check_values.
  destruct (Forall_Exists_dec _ int_or_none_dec values) as [Hall|Hbad].
  - rewrite (proj2 (check_each_done values) Hall). cbn [and_then].
    destruct (forallb is_none values) eqn:Enone.
    + destruct values as [|v values].
      * left. cbn. auto.
      * right. right. cbn. repeat split; [discriminate|].
        now apply forallb_is_none.
    + left. rewrite andb_false_r. repeat split; [exact Hall|].
      right. apply Exists_exists.
      assert (Hsome : ~ Forall (fun v => v = PyNone) values).
      { intro H. apply forallb_is_none in H. congruence. }
      apply neg_Forall_Exists_neg in Hsome.
      * apply Exists_exists in Hsome as [v [Hv Hnot]]. exists v. split; [exact Hv|].
        rewrite Forall_forall in Hall. destruct (Hall v Hv); congruence.
      * intro v. destruct v; (now left) || (right; discriminate).
  - right. left. split.
    + rewrite check_each_failed; [reflexivity|].
      intro H. apply check_each_done in H.
      apply Exists_exists in Hbad as [v [Hv Hnot]].
      rewrite Forall_forall in H. exact (Hnot (H v Hv)).
    + eapply Exists_impl; [|exact Hbad]. intros v Hv. split; intro; apply Hv; auto.
Qed.

(** A column that was constructed accepts every value it was inferred
    from: [get_cell_value] returns each of them unchanged.  It is named
    as asked, of type [INT], its feature (when one was given) passed the
    check, and unless there was no value at all, one of them is an
    [int]. *)
Theorem int_column_accepts_its_values :
  forall (check_feature_type : PyValue -> string -> list string -> Exc unit)
         (column_name : string) (feature : PyValue) (values : list PyValue)
         (column : Column),
    IntColumn_init check_feature_type column_name feature values = Done column ->
    name column = column_name
    /\ type column = INT
    /\ (py_truthy feature = true ->
        check_feature_type feature "Value" INT_DTYPES = Ok tt)
    /\ (forall (value : PyValue) (dataset config split : string) (row_idx : Z),
           In value values ->
           IntColumn.get_cell_value dataset config split row_idx value = Ok value)
    /\ (values = [] \/ exists z, In (PyInt z) values).
Proof.
  intros cft column_name feature values column. unfold IntColumn_init.
  destruct (py_truthy feature) eqn:Efeature.
  - destruct (cft feature "Value" INT_DTYPES) as [[]|e] eqn:Ecft;
      cbn [and_then]; [|discriminate].
    destruct (check_values_outcome values) as [(Hv & Hall & Hint)|[(Hv & _)|(Hv & _)]];
      rewrite Hv; cbn [and_then]; try discriminate.
    intro H. injection H as <-. repeat split; try reflexivity.
    + intros value d c s i Hin. rewrite Forall_forall in Hall.
      unfold IntColumn.get_cell_value.
      now rewrite (proj2 (check_value_ok value) (Hall value Hin)).
    + destruct Hint as [Hint|Hint]; [now left | right].
      apply Exists_exists in Hint as [v [Hin Hty]].
      destruct v; try discriminate. now exists z.
  - cbn [and_then].
    destruct (check_values_outcome values) as [(Hv & Hall & Hint)|[(Hv & _)|(Hv & _)]];
      rewrite Hv; cbn [and_then]; try discriminate.
    intro H. injection H as <-. repeat split; try reflexivity; try discriminate.
    + intros value d c s i Hin. rewrite Forall_forall in Hall.
      unfold IntColumn.get_cell_value.
      now rewrite (proj2 (check_value_ok value) (Hall value Hin)).
    + destruct Hint as [Hint|Hint]; [now left | right].
      apply Exists_exists in Hint as [v [Hin Hty]].
      destruct v; try discriminate. now exists z.
Qed.

Lemma int_column_accepts_its_values_witness :
  IntColumn.get_cell_value "dataset" "config" "split" 1 PyNone = Ok PyNone.
Proof.
  refine (proj1 (proj2 (proj2 (proj2
            (int_column_accepts_its_values
               (fun _ _ _ => Ok tt) "label" (PyObject "Value")
               [PyInt 3; PyNone] (mkColumn "label" INT) eq_refl))))
            PyNone "dataset" "config" "split" 1%Z _).
  simpl. auto.
Defined.

(* ------------------------------------------------------------------ *)
(** ** The migration that deletes the cache entries of one kind *)

Lemma filter_out_then_in {X : Type} (p : X -> bool) (l : list X) :
  filter p (filter (fun x => negb (p x)) l) = [].
Proof.
  induction l as [|x l IH]; simpl; [reflexivity|].
  destruct (p x) eqn:E; simpl; [exact IH | now rewrite E].
Qed.

Lemma filter_idempotent {X : Type} (p : X -> bool) (l : list X) :
  filter p (filter p l) = filter p l.
Proof.
  induction l as [|x l IH]; simpl; [reflexivity|].
  destruct (p x) eqn:E; simpl; [now rewrite E, IH | exact IH].
Qed.

(** After [up], [validate] passes: no document of the kind is left to
    be found, whatever the collections held before. *)
Theorem up_then_validate :
  forall (alias collection : string) (db : Migration.Mongo),
    fst (Migration.up alias collection db) = inl tt
    /\ Migration.validate alias collection (snd (Migration.up alias collection db))
       = (inl tt, snd (Migration.up alias collection db)).
Proof.
  intros alias collection db. split; [reflexivity|].
  unfold Migration.validate, Migration.count_documents, Migration.up,
    Migration.delete_many. cbn [snd].
  rewrite !String.eqb_refl. cbn [andb].
  now rewrite filter_out_then_in.
Qed.

(** [up] deletes the documents of kind [/parquet-and-dataset-info] of
    the cache collection and nothing else: no document left there has
    that kind, the documents of other kinds (or without a kind) are
    kept, in order; every other collection is as it was; and running
    [up] again changes nothing. *)
Theorem up_deletes_only_that_kind :
  forall (alias collection : string) (db : Migration.Mongo),
    let kept := fun doc =>
      negb (Migration.field_equals "kind" Migration.cache_kind doc) in
    let db' := snd (Migration.up alias collection db) in
    Forall (fun doc => Migration.field_equals "kind" Migration.cache_kind doc = false)
           (db' alias collection)
    /\ filter kept (db' alias collection) = filter kept (db alias collection)
    /\ List.length (db' alias collection)
       = List.length (db alias collection)
         - List.length (filter (Migration.field_equals "kind" Migration.cache_kind)
                               (db alias collection))
    /\ (forall a c, (a, c) <> (alias, collection) -> db' a c = db a c)
    /\ (forall a c, snd (Migration.up alias collection db') a c = db' a c).
Proof.
  intros alias collection db kept db'. subst db'.
  unfold Migration.up, Migration.delete_many. cbn [snd].
  rewrite !String.eqb_refl. cbn [andb]. fold kept.
  split; [|split; [|split; [|split]]].
  - apply Forall_forall. intros doc Hdoc. apply filter_In in Hdoc as [_ H].
    now apply negb_true_iff in H.
  - apply filter_idempotent.
  - pose proof (filter_length (Migration.field_equals "kind" Migration.cache_kind)
                  (db alias collection)) as H.
    fold kept in H. lia.
  - intros a c Hne.
    destruct (String.eqb_spec a alias) as [->|Ha]; [|reflexivity].
    destruct (String.eqb_spec c collection) as [->|Hc]; [|reflexivity].
    congruence.
  - intros a c. destruct (String.eqb a alias && String.eqb c collection);
      [apply filter_idempotent | reflexivity].
Qed.

Lemma up_deletes_only_that_kind_witness :
  snd (Migration.up "cache" "cachedResponsesBlue"
         (fun _ _ => [[("kind", PyStr "/parquet-and-dataset-info")];
                      [("kind", PyStr "/splits")]]))
      "queue" "jobsBlue"
  = [[("kind", PyStr "/parquet-and-dataset-info")]; [("kind", PyStr "/splits")]].
Proof.
  refine (proj1 (proj2 (proj2 (proj2
            (up_deletes_only_that_kind "cache" "cachedResponsesBlue"
               (fun _ _ => [[("kind", PyStr "/parquet-and-dataset-info")];
                            [("kind", PyStr "/splits")]])))))
            "queue" "jobsBlue" _).
  discriminate.
Defined.

(** [validate] raises [ValueError] exactly when a document of the kind
    is in the cache collection, and [down] always raises
    [IrreversibleMigrationError]; neither changes any collection. *)
Theorem validate_and_down :
  forall (alias collection : string) (db : Migration.Mongo),
    let found := Migration.field_equals "kind" Migration.cache_kind in
    snd (Migration.validate alias collection db) = db
    /\ ((fst (Migration.validate alias collection db) = inl tt
         /\ Forall (fun doc => found doc = false) (db alias collection))
        \/ (fst (Migration.validate alias collection db)
            = inr (Migration.ValueError
                     "Found documents with kind /parquet-and-dataset-info")
            /\ Exists (fun doc => found doc = true) (db alias collection)))
    /\ Migration.down db
       = (inr (Migration.IrreversibleMigrationError
                 "This migration does not support rollback"), db).
Proof.
  intros alias collection db found.
  unfold Migration.validate, Migration.count_documents. fold found.
  destruct (filter found (db alias collection)) as [|doc others] eqn:E;
    cbn [List.length Nat.ltb Nat.leb fst snd].
  - repeat split. left. split; [reflexivity|].
    apply Forall_forall. intros doc Hdoc.
    destruct (found doc) eqn:Ef; [|reflexivity].
    assert (H : In doc (filter found (db alias collection)))
      by (apply filter_In; auto).
    rewrite E in H. destruct H.
  - repeat split. right. split; [reflexivity|].
    apply Exists_exists. exists doc.
    assert (H : In doc (filter found (db alias collection)))
      by (rewrite E; now left).
    apply filter_In in H. exact H.
Qed.

(* ------------------------------------------------------------------ *)
(** ** The coordinator, from any log *)

Lemma full_text_search_at (w : World) (idx : Index) (num_original_rows : Z)
    (fts_batches : bool) (location query : string) (offset length : nat)
    (ext : option string) (log : list Event) :
  files w location = Some idx ->
  let con := mkCon (engine w) idx in
  full_text_search w num_original_rows fts_batches location query
    offset length ext log
  = (exc_bind
       (if fts_batches
        then after_loop
               (map (window_table con query)
                    (visited_windows con query offset length num_original_rows))
               offset length
        else Ok (execute (engine w) idx (FTS_BY_TABLE_COMMAND offset length) query))
       (fun page => Ok (VInt (Z.of_nat (List.length (matches idx query))), page)),
     log ++ EvConnect location :: EvExecute FTS_COUNT_COMMAND [query]
         :: strategy_events con fts_batches query offset length num_original_rows
         ++ [EvClose location]).
Proof.
  intros Hfile con. unfold full_text_search, with_duckdb_connect.
  rewrite Hfile. unfold bind at 1. rewrite con_execute_run.
  unfold bind at 1. cbn [lift rows execute fetched_cell nth_error].
  cbv beta iota. unfold bind, ret, strategy_events. fold con.
  destruct fts_batches.
  - rewrite search_by_batches_run. fold (visited_windows con query offset length
                                           num_original_rows).
    destruct (after_loop _ _ _) as [t|e]; cbn [exc_bind]; f_equal;
      now rewrite <- !app_assoc.
  - rewrite search_by_table_run. cbn [exc_bind]. f_equal.
    now rewrite <- !app_assoc.
Qed.

Lemma full_text_search_unopened (w : World) (num_original_rows : Z)
    (fts_batches : bool) (location query : string) (offset length : nat)
    (ext : option string) (log : list Event) :
  files w location = None ->
  full_text_search w num_original_rows fts_batches location query
    offset length ext log
  = (Raise (IOException location), log).
Proof.
  intro Hfile. unfold full_text_search, with_duckdb_connect. now rewrite Hfile.
Qed.

(** What [full_text_search] does to a log is to append what it does to
    the empty log. *)
Lemma full_text_search_from (w : World) (num_original_rows : Z)
    (fts_batches : bool) (location query : string) (offset length : nat)
    (ext : option string) (log : list Event) :
  full_text_search w num_original_rows fts_batches location query
    offset length ext log
  = (fst (run (full_text_search w num_original_rows fts_batches location query
                 offset length ext)),
     log ++ snd (run (full_text_search w num_original_rows fts_batches location
                        query offset length ext))).
Proof.
  unfold run. destruct (files w location) as [idx|] eqn:Hfile.
  - now rewrite !(full_text_search_at w idx _ _ _ _ _ _ _ _ Hfile).
  - rewrite !full_text_search_unopened by exact Hfile. cbn [fst snd].
    now rewrite app_nil_r.
Qed.

(** Called with an integer, the search of the endpoint is
    [full_text_search]; the direct strategy is so with any value. *)
Lemma full_text_search_dyn_int (w : World) (v : PyValue) (n : Z)
    (fts_batches : bool) (location query : string) (offset length : nat)
    (ext : option string) (log : list Event) :
  as_int v = Ok n ->
  full_text_search_dyn w v fts_batches location query offset length ext log
  = full_text_search w n fts_batches location query offset length ext log.
Proof.
  intro Hv. unfold full_text_search_dyn, full_text_search, _search_by_batches_dyn.
  rewrite Hv. destruct fts_batches; reflexivity.
Qed.

Lemma full_text_search_dyn_direct (w : World) (v : PyValue) (n : Z)
    (location query : string) (offset length : nat)
    (ext : option string) (log : list Event) :
  full_text_search_dyn w v false location query offset length ext log
  = full_text_search w n false location query offset length ext log.
Proof. reflexivity. Qed.

(** Called with anything else, the chunked strategy raises once the
    index is open and counted; the connection is closed. *)
Lemma full_text_search_dyn_type_error (w : World) (v : PyValue) (e : Exception)
    (location query : string) (offset length : nat)
    (ext : option string) (log : list Event) :
  as_int v = Raise e ->
  full_text_search_dyn w v true location query offset length ext log
  = match files w location with
    | None => (Raise (IOException location), log)
    | Some _ =>
        (Raise e,
         log ++ [EvConnect location; EvExecute FTS_COUNT_COMMAND [query];
                 EvClose location])
    end.
Proof.
  intro Hv. unfold full_text_search_dyn, with_duckdb_connect,
    _search_by_batches_dyn.
  destruct (files w location) as [idx|]; [|reflexivity].
  rewrite Hv. unfold bind at 1. rewrite con_execute_run.
  cbn. now rewrite <- !app_assoc.
Qed.

Lemma full_text_search_dyn_from (w : World) (v : PyValue)
    (fts_batches : bool) (location query : string) (offset length : nat)
    (ext : option string) (log : list Event) :
  full_text_search_dyn w v fts_batches location query offset length ext log
  = (fst (run (full_text_search_dyn w v fts_batches location query
                 offset length ext)),
     log ++ snd (run (full_text_search_dyn w v fts_batches location query
                        offset length ext))).
Proof.
  unfold run. destruct fts_batches.
  - destruct (as_int v) as [n|e] eqn:Hv.
    + rewrite !(full_text_search_dyn_int w v n _ _ _ _ _ _ _ Hv).
      apply full_text_search_from.
    + rewrite !(full_text_search_dyn_type_error w v e _ _ _ _ _ _ Hv).
      destruct (files w location); cbn [fst snd app];
        [reflexivity | now rewrite app_nil_r].
  - rewrite !(full_text_search_dyn_direct w v 0).
    apply full_text_search_from.
Qed.

(** When the search of the endpoint returns, the index at the location
    was opened and the total is its number of matching rows. *)
Lemma full_text_search_dyn_ok (w : World) (v : PyValue)
    (fts_batches : bool) (location query : string) (offset length : nat)
    (ext : option string) (total : Value) (page : Table) :
  fst (run (full_text_search_dyn w v fts_batches location query
              offset length ext)) = Ok (total, page) ->
  exists idx,
    files w location = Some idx
    /\ total = VInt (Z.of_nat (List.length (matches idx query))).
Proof.
  assert (Hfts : forall n fts,
             fst (run (full_text_search w n fts location query offset length ext))
             = Ok (total, page) ->
             exists idx,
               files w location = Some idx
               /\ total = VInt (Z.of_nat (List.length (matches idx query)))).
  { intros n fts H. unfold run in H.
    destruct (files w location) as [idx|] eqn:Hfile.
    - rewrite (full_text_search_at w idx _ _ _ _ _ _ _ _ Hfile) in H.
      cbn [fst] in H. exists idx. split; [reflexivity|].
      destruct (if fts then _ else _) as [t|e]; cbn [exc_bind] in H; congruence.
    - rewrite full_text_search_unopened in H by exact Hfile. discriminate H. }
  unfold run. destruct fts_batches.
  - destruct (as_int v) as [n|e] eqn:Hv.
    + rewrite (full_text_search_dyn_int w v n _ _ _ _ _ _ _ Hv). apply Hfts.
    + rewrite (full_text_search_dyn_type_error w v e _ _ _ _ _ _ Hv).
      destruct (files w location); discriminate.
  - rewrite (full_text_search_dyn_direct w v 0). apply Hfts.
Qed.

(** The connection is scoped.  When the index file cannot be opened,
    [full_text_search] raises and nothing has been done.  When it can,
    the log is the opening of the connection, the count query, the
    queries of the selected strategy and the closing of the
    connection, also when the search raises. *)
Theorem connection_is_released :
  forall (w : World) (num_original_rows : Z) (fts_batches : bool)
         (location query : string) (offset length : nat) (ext : option string),
    let outcome :=
      run (full_text_search w num_original_rows fts_batches location query
             offset length ext) in
    (files w location = None ->
     outcome = (Raise (IOException location), []))
    /\ (forall idx, files w location = Some idx ->
        exists queries,
          snd outcome
          = EvConnect location :: EvExecute FTS_COUNT_COMMAND [query]
              :: queries ++ [EvClose location]
          /\ Forall (fun ev => if fts_batches
                               then is_window_query ev = true
                               else is_table_query ev = true) queries
          /\ (fts_batches = false -> List.length queries = 1)).
Proof.
  intros w n fts location query offset length ext outcome. subst outcome. split.
  - intro Hfile. unfold run. now apply full_text_search_unopened.
  - intros idx Hfile. unfold run.
    rewrite (full_text_search_at w idx _ _ _ _ _ _ _ _ Hfile). cbn [snd app].
    eexists. split; [reflexivity|]. unfold strategy_events. destruct fts; split.
    + apply Forall_forall. intros ev Hev.
      apply in_map_iff in Hev as [i [<- _]]. reflexivity.
    + discriminate.
    + repeat constructor.
    + reflexivity.
Qed.

Lemma connection_is_released_witness :
  run (full_text_search (world_of stable_engine "index.duckdb" tied_index)
         0 true "elsewhere.duckdb" "query" 0 2 None)
  = (Raise (IOException "elsewhere.duckdb"), []).
Proof.
  apply (proj1 (connection_is_released
                  (world_of stable_engine "index.duckdb" tied_index)
                  0 true "elsewhere.duckdb" "query" 0 2 None)).
  reflexivity.
Defined.

(* ------------------------------------------------------------------ *)
(** ** The size of a page *)

Lemma flat_map_length_sum {X Y : Type} (f : X -> list Y) (l : list X) :
  List.length (flat_map f l) = list_sum (map (fun x => List.length (f x)) l).
Proof.
  induction l as [|x l IH]; simpl; [reflexivity|].
  now rewrite length_app, IH.
Qed.

Lemma after_loop_rows (tables : list Table) (offset length : nat) (t : Table) :
  after_loop tables offset length = Ok t ->
  num_rows t = Nat.min length (list_sum (map num_rows tables) - offset).
Proof.
  unfold after_loop, concat_tables.
  destruct tables as [|first others]; [discriminate|].
  destruct (forallb _ others); [|discriminate]. cbn [exc_bind].
  unfold sort_by_descending, drop. cbn [schema rows].
  destruct (get_field_index (schema first) FTS_SCORE_COLUMN) as [i|];
    [|discriminate].
  cbn [exc_bind schema rows].
  destruct (get_field_index (schema first) FTS_SCORE_COLUMN) as [i'|];
    [|discriminate].
  cbn [exc_bind]. intro H. injection H as <-.
  unfold num_rows, slice. cbn [rows].
  rewrite slice_length, length_map.
  rewrite (Permutation_length (sort_perm _ _)).
  change (rows first ++ flat_map rows others)
    with (flat_map rows (first :: others)).
  now rewrite flat_map_length_sum.
Qed.

Lemma visited_windows_count (con : DuckDBPyConnection) (query : string)
    (offset length : nat) (n : Z) :
  let indices := py_range 0 n FTS_BATCH_SIZE in
  let visited := visited_windows con query offset length n in
  list_sum (map num_rows (map (window_table con query) visited))
  = running_count con query indices (List.length visited)
  /\ List.length visited <= List.length indices
  /\ (List.length visited < List.length indices ->
      offset + length
      < list_sum (map num_rows (map (window_table con query) visited))).
Proof.
  intros indices visited. subst visited. unfold visited_windows. fold indices.
  set (sizes := map (fun i => num_rows (window_table con query i)) indices).
  assert (Hlen : List.length sizes = List.length indices)
    by apply length_map.
  pose proof (stop_after_le (offset + length) sizes 0) as Hle.
  rewrite length_firstn, Nat.min_l by lia.
  unfold running_count. rewrite map_map. repeat split; [lia|].
  intro Hlt. fold indices. rewrite <- firstn_map. fold sizes.
  destruct (stop_after_reason (offset + length) sizes 0) as [H|H]; lia.
Qed.

(** The direct strategy returns [min(length, total - offset)] rows,
    where [total] is the count that comes with the page.  The chunked
    strategy returns at most [length] rows, and exactly [length] rows
    whenever it stopped before the last window. *)
Theorem page_sizes :
  forall (w : World) (idx : Index) (num_original_rows : Z)
         (location query : string) (offset length : nat) (ext : option string),
    files w location = Some idx -> engine_ok (engine w) ->
    (exists page,
        fst (run (full_text_search w num_original_rows false location query
                    offset length ext))
        = Ok (VInt (Z.of_nat (List.length (matches idx query))), page)
        /\ num_rows page
           = Nat.min length (List.length (matches idx query) - offset))
    /\ (forall total page,
           fst (run (full_text_search w num_original_rows true location query
                       offset length ext)) = Ok (total, page) ->
           num_rows page <= length
           /\ (List.length (visited_windows (mkCon (engine w) idx) query
                              offset length num_original_rows)
               < List.length (py_range 0 num_original_rows FTS_BATCH_SIZE) ->
               num_rows page = length)).
Proof.
  intros w idx n location query offset length ext Hfile HE. unfold run. split.
  - rewrite (full_text_search_at w idx _ _ _ _ _ _ _ _ Hfile). cbn [fst exc_bind].
    eexists. split; [reflexivity|].
    unfold num_rows, execute, exclude_column. cbn [rows].
    rewrite !length_map, slice_length.
    now rewrite (Permutation_length (proj1 (HE (matches idx query)))).
  - intros total page.
    rewrite (full_text_search_at w idx _ _ _ _ _ _ _ _ Hfile). cbn [fst].
    destruct (after_loop _ _ _) as [t|e] eqn:E; cbn [exc_bind]; [|discriminate].
    intro H. injection H as _ <-. apply after_loop_rows in E.
    destruct (visited_windows_count (mkCon (engine w) idx) query offset length n)
      as (_ & _ & Hearly).
    split; [lia|]. intro Hlt. specialize (Hearly Hlt). lia.
Qed.

Lemma page_sizes_witness :
  exists page,
    fst (run (full_text_search (world_of stable_engine "index.duckdb" tied_index)
                2 false "index.duckdb" "query" 1 5 None))
    = Ok (VInt 2, page)
    /\ num_rows page = 1.
Proof.
  apply (proj1 (page_sizes (world_of stable_engine "index.duckdb" tied_index)
                  tied_index 2 "index.duckdb" "query" 1 5 None
                  eq_refl stable_engine_ok)).
Defined.

(* ------------------------------------------------------------------ *)
(** ** The window queries *)

Lemma in_firstn {X : Type} (k : nat) (l : list X) (x : X) :
  In x (firstn k l) -> In x l.
Proof.
  intro H. rewrite <- (firstn_skipn k l). apply in_or_app. now left.
Qed.

Lemma ascending_nodup (l : list Z) : StronglySorted Z.lt l -> NoDup l.
Proof.
  induction 1 as [|x l Hl IH Hx]; constructor; [|exact IH].
  intro Hin. rewrite Forall_forall in Hx. specialize (Hx x Hin). lia.
Qed.

Lemma nodup_map {X Y : Type} (f : X -> Y) (l : list X) :
  (forall a b, f a = f b -> a = b) -> NoDup l -> NoDup (map f l).
Proof.
  intros Hf. induction 1 as [|x l Hx Hl IH]; simpl; constructor; [|exact IH].
  intro Hin. apply in_map_iff in Hin as [y [Hy Hin]].
  apply Hf in Hy. now subst.
Qed.

(** The chunked strategy sends nothing but window queries, each with
    the query text as its only parameter.  A window starts at a
    multiple of 1000 below [num_original_rows] and is asked up to 1000
    further; no window is queried twice, so there are at most
    [ceil(num_original_rows / 1000)] queries. *)
Theorem window_queries_in_range :
  forall (con : DuckDBPyConnection) (query : string) (offset length : nat)
         (num_original_rows : Z),
    let log :=
      snd (run (_search_by_batches num_original_rows con query offset length)) in
    (forall ev, In ev log ->
       exists j : nat,
         ev = EvExecute (FTS_BY_BATCHES_COMMAND (1000 * Z.of_nat j)
                                                (1000 * Z.of_nat j + 1000))
                        [query]
         /\ (1000 * Z.of_nat j < num_original_rows)%Z)
    /\ NoDup log
    /\ List.length log <= Z.to_nat ((num_original_rows + 999) / 1000).
Proof.
  intros con query offset length n log. subst log. unfold run.
  rewrite search_by_batches_run. cbn [snd app]. repeat split.
  - intros ev Hev. apply in_map_iff in Hev as [i [<- Hi]].
    apply in_firstn in Hi. unfold py_range, FTS_BATCH_SIZE in Hi.
    apply in_map_iff in Hi as [j [<- Hj]]. apply in_seq in Hj.
    exists j. split.
    + unfold window_event, FTS_BATCH_SIZE. f_equal. f_equal; lia.
    + destruct Hj as [_ Hj]. cbn [Nat.add] in Hj.
      remember ((n - 0 + 1000 - 1) / 1000)%Z as windows eqn:Hw.
      assert (H : (Z.of_nat j < windows)%Z) by lia.
      subst windows. revert H. clear Hj. Z.div_mod_to_equations. lia.
  - apply nodup_map.
    + intros a b H. unfold window_event in H. now injection H.
    + apply ascending_nodup, sorted_firstn, py_range_ascending.
  - rewrite length_map, length_firstn. unfold py_range, FTS_BATCH_SIZE.
    rewrite length_map, length_seq.
    replace (n - 0 + 1000 - 1)%Z with (n + 999)%Z by lia. lia.
Qed.

Lemma window_queries_in_range_witness :
  exists j : nat,
    EvExecute (FTS_BY_BATCHES_COMMAND 1000 2000) ["query"]
    = EvExecute (FTS_BY_BATCHES_COMMAND (1000 * Z.of_nat j)
                                        (1000 * Z.of_nat j + 1000))
                ["query"]
    /\ (1000 * Z.of_nat j < 2500)%Z.
Proof.
  apply (proj1 (window_queries_in_range (con_of stable_engine example_index)
                  "query" 0 2 2500)).
  vm_compute. auto.
Defined.

(* ------------------------------------------------------------------ *)
(** ** Every way through the endpoint *)

Lemma bind_lift_Ok {A B} (a : A) (k : A -> M B) (log : list Event) :
  bind (lift (Ok a)) k log = k a log.
Proof. reflexivity. Qed.

Lemma bind_emit {B} (ev : Event) (k : unit -> M B) (log : list Event) :
  bind (emit ev) k log = k tt (log ++ [ev]).
Proof. reflexivity. Qed.

Lemma bind_at {A B} (m : M A) (k : A -> M B) (log log' : list Event) (r : Exc A) :
  m log = (r, log') ->
  bind m k log = match r with
                 | Ok a => k a log'
                 | Raise e => (Raise e, log')
                 end.
Proof. unfold bind. intros ->. now destruct r. Qed.

Lemma is_True_true (v : PyValue) : is_True v = true -> v = PyBool true.
Proof. destruct v as [| |[|]| | | | |]; simpl; congruence. Qed.

Lemma create_response_fields (c : Collaborators) (pa_table : Table)
    (offset : nat) (features : Features) (total : Value) (partial : bool)
    (response : PaginatedResponse) :
  create_response c pa_table offset features total partial = Ok response ->
  resp_num_rows_total response = total
  /\ resp_partial response = partial
  /\ resp_num_rows_per_page response = MAX_NUM_ROWS_PER_PAGE c
  /\ resp_features response
     = to_features_list c (dict_pop features ROW_IDX_COLUMN).
Proof.
  unfold create_response.
  destruct (drop_columns _ _) as [t|e]; cbn [exc_bind]; [|discriminate].
  destruct (to_rows_list c t offset features _) as [l|e]; cbn [exc_bind];
    [|discriminate].
  intro H. injection H as <-. repeat split.
Qed.

(** The ways through [search_endpoint]: an exception answered as an API
    error before anything was done to the index; the error of the cache
    entry passed on; or, with valid parameters, an authorised caller and
    a cache entry of status 200 whose [has_fts] is [True], the download
    of the index followed by the search. *)
Lemma search_endpoint_cases (c : Collaborators) (s : Settings) (w : World)
    (request : Request) :
  let out := run (search_endpoint c s w request) in
  (exists revision e, out = (Ok (on_exception s revision e), []))
  \/ (exists content status error_code revision,
         is_not_http_ok status = true
         /\ out = (Ok (JsonErrorResponse content status (max_age_short s)
                         error_code revision), []))
  \/ (exists dataset config split query offset length entry revision status
             content filename url n,
         get_request_parameter c request "dataset" = Ok dataset
         /\ get_request_parameter c request "config" = Ok config
         /\ get_request_parameter c request "split" = Ok split
         /\ get_request_parameter c request "query" = Ok query
         /\ get_request_parameter_offset c request = Ok offset
         /\ get_request_parameter_length c request = Ok length
         /\ auth_check c dataset request = Ok tt
         /\ get_cache_entry_from_duckdb_index_job c dataset config split = Ok entry
         /\ dict_get entry "dataset_git_revision" = Ok revision
         /\ dict_get entry "http_status" = Ok status
         /\ is_not_http_ok status = false
         /\ dict_get entry "content" = Ok (PyDict content)
         /\ dict_get content "has_fts" = Ok (PyBool true)
         /\ dict_get content "url" = Ok url
         /\ dict_get content "filename" = Ok filename
         /\ dict_get content "num_rows" = Ok n
         /\ ((exists e, out = (Ok (on_exception s revision e),
                               [EvDownload filename]))
             \/ exists location,
                 get_index_file_location_and_download_if_missing c
                   dataset config split revision filename url = Ok location
                 /\ let search :=
                      run (full_text_search_dyn w n
                             (existsb (String.eqb dataset)
                                      DATASETS_WITH_FTS_BY_BATCHES)
                             location query offset length
                             (extensions_directory s)) in
                    (exists e,
                        out = (Ok (on_exception s revision e),
                               EvDownload filename :: snd search))
                    \/ (exists total page response,
                           fst search = Ok (total, page)
                           /\ resp_num_rows_total response = total
                           /\ resp_num_rows_per_page response
                              = MAX_NUM_ROWS_PER_PAGE c
                           /\ out = (Ok (JsonOkResponse response (max_age_long s)
                                           revision),
                                     EvDownload filename :: snd search)))).
Proof.
  intro out. subst out. unfold run, search_endpoint, try_except.
  destruct (get_request_parameter c request "dataset") as [dataset|e] eqn:Hd;
    [rewrite bind_lift_Ok | left; exists PyNone; eexists; reflexivity].
  destruct (get_request_parameter c request "config") as [config|e] eqn:Hc;
    [rewrite bind_lift_Ok | left; exists PyNone; eexists; reflexivity].
  destruct (get_request_parameter c request "split") as [split|e] eqn:Hs;
    [rewrite bind_lift_Ok | left; exists PyNone; eexists; reflexivity].
  destruct (get_request_parameter c request "query") as [query|e] eqn:Hq;
    [rewrite bind_lift_Ok | left; exists PyNone; eexists; reflexivity].
  destruct (get_request_parameter_offset c request) as [offset|e] eqn:Ho;
    [rewrite bind_lift_Ok | left; exists PyNone; eexists; reflexivity].
  destruct (get_request_parameter_length c request) as [length|e] eqn:Hl;
    [rewrite bind_lift_Ok | left; exists PyNone; eexists; reflexivity].
  destruct (auth_check c dataset request) as [[]|e] eqn:Ha;
    [rewrite bind_lift_Ok | left; exists PyNone; eexists; reflexivity].
  destruct (get_cache_entry_from_duckdb_index_job c dataset config split)
    as [entry|e] eqn:He;
    [rewrite bind_lift_Ok | left; exists PyNone; eexists; reflexivity].
  destruct (dict_get entry "dataset_git_revision") as [revision|e] eqn:Hr;
    [rewrite bind_lift_Ok | left; exists PyNone; eexists; reflexivity].
  unfold search_with_cache_entry.
  destruct (dict_get entry "http_status") as [status|e] eqn:Hst;
    [rewrite bind_lift_Ok | left; exists revision; eexists; reflexivity].
  destruct (is_not_http_ok status) eqn:Hok.
  { destruct (dict_get entry "content") as [content|e] eqn:Hco;
      [rewrite bind_lift_Ok | left; exists revision; eexists; reflexivity].
    destruct (dict_get entry "error_code") as [code|e] eqn:Hcode;
      [rewrite bind_lift_Ok | left; exists revision; eexists; reflexivity].
    right. left. exists content, status, code, revision. split; [exact Hok|].
    reflexivity. }
  destruct (dict_get entry "content") as [[| | | | | |content|]|e] eqn:Hco;
    cbn [exc_bind as_dict];
    try (left; exists revision; eexists; reflexivity).
  rewrite bind_lift_Ok.
  destruct (dict_get content "has_fts") as [has_fts|e] eqn:Hf;
    [rewrite bind_lift_Ok | left; exists revision; eexists; reflexivity].
  destruct (is_True has_fts) eqn:Htrue; cbn [negb];
    [|left; exists revision; eexists; reflexivity].
  apply is_True_true in Htrue. subst has_fts.
  destruct (dict_get content "url") as [url|e] eqn:Hu;
    [rewrite bind_lift_Ok | left; exists revision; eexists; reflexivity].
  destruct (dict_get content "filename") as [filename|e] eqn:Hfn;
    [rewrite bind_lift_Ok | left; exists revision; eexists; reflexivity].
  destruct (dict_get content "num_rows") as [n|e] eqn:Hn;
    [rewrite bind_lift_Ok | left; exists revision; eexists; reflexivity].
  destruct (duckdb_index_is_partial c url) as [partial|e] eqn:Hp;
    [rewrite bind_lift_Ok | left; exists revision; eexists; reflexivity].
  rewrite bind_emit. cbn [app].
  right. right.
  exists dataset, config, split, query, offset, length, entry, revision, status,
         content, filename, url, n.
  do 16 (split; [first [assumption | reflexivity]|]).
  destruct (get_index_file_location_and_download_if_missing c dataset config
              split revision filename url) as [location|e] eqn:Hdl;
    [rewrite bind_lift_Ok | left; eexists; reflexivity].
  right. exists location. split; [reflexivity|]. cbv zeta.
  rewrite (bind_at _ _ _ _ _ (full_text_search_dyn_from _ _ _ _ _ _ _ _ _)).
  cbn [app].
  destruct (fst (run (full_text_search_dyn w n _ location query offset length _)))
    as [[total page]|e] eqn:Hsearch;
    [|left; eexists; reflexivity].
  match goal with
  | |- context [bind (lift ?r) _ _] =>
      destruct r as [features|e] eqn:Hfeatures;
      [rewrite bind_lift_Ok | left; eexists; reflexivity]
  end.
  destruct (create_response c page offset features total partial)
    as [response|e] eqn:Hresp;
    [rewrite bind_lift_Ok | left; eexists; reflexivity].
  right. exists total, page, response.
  apply create_response_fields in Hresp as (Ht & _ & Hm & _).
  repeat split; assumption.
Qed.

Lemma on_exception_shape (s : Settings) (revision : PyValue) (e : Exception) :
  exists error,
    on_exception s revision e
    = JsonApiErrorResponse error (max_age_short s) revision
    /\ match error with
       | ApiErrorOf e' => e' = e /\ is_api_error e = true
       | UnexpectedApiError msg cause =>
           msg = "Unexpected error." /\ cause = e /\ is_api_error e = false
       end.
Proof.
  unfold on_exception. destruct (is_api_error e) eqn:E; eexists;
    (split; [reflexivity|]); simpl; auto.
Qed.

Ltac answered_by_exception s revision e :=
  let error := fresh "error" in
  let Heq := fresh "Heq" in
  let Herr := fresh "Herr" in
  destruct (on_exception_shape s revision e) as (error & Heq & Herr);
  rewrite Heq; eexists; split; [reflexivity|]; split; [reflexivity|];
  destruct error; intuition (subst; auto).


(** The index is downloaded, opened or queried only for a request whose
    parameters are valid and whose caller is authorised, and only when
    the cache entry of the index has status 200 and [has_fts] is
    [True]. *)
Theorem index_untouched_unless_enabled :
  forall (c : Collaborators) (s : Settings) (w : World) (request : Request),
    snd (run (search_endpoint c s w request)) <> [] ->
    exists dataset config split entry status content,
      get_request_parameter c request "dataset" = Ok dataset
      /\ auth_check c dataset request = Ok tt
      /\ get_cache_entry_from_duckdb_index_job c dataset config split = Ok entry
      /\ dict_get entry "http_status" = Ok status
      /\ is_not_http_ok status = false
      /\ dict_get entry "content" = Ok (PyDict content)
      /\ dict_get content "has_fts" = Ok (PyBool true).
Proof.
  intros c s w request Hlog.
  destruct (search_endpoint_cases c s w request)
    as [(revision & e & H)
       |[(content & status & code & revision & Hok & H)
        |(dataset & config & split & query & offset & length & entry & revision
          & status & content & filename & url & n
          & Hd & _ & _ & _ & _ & _ & Ha & He & _ & Hst & Hok & Hco & Hf & _)]].
  - rewrite H in Hlog. now contradiction Hlog.
  - rewrite H in Hlog. now contradiction Hlog.
  - exists dataset, config, split, entry, status, content. repeat split; assumption.
Qed.

Lemma index_untouched_unless_enabled_witness :
  exists dataset config split entry status content,
    get_request_parameter (sample_collaborators (PyBool true)) sample_request
                          "dataset" = Ok dataset
    /\ auth_check (sample_collaborators (PyBool true)) dataset sample_request
       = Ok tt
    /\ get_cache_entry_from_duckdb_index_job (sample_collaborators (PyBool true))
         dataset config split = Ok entry
    /\ dict_get entry "http_status" = Ok status
    /\ is_not_http_ok status = false
    /\ dict_get entry "content" = Ok (PyDict content)
    /\ dict_get content "has_fts" = Ok (PyBool true).
Proof.
  apply (index_untouched_unless_enabled
           (sample_collaborators (PyBool true)) sample_settings
           (world_of stable_engine "index.duckdb" tied_index) sample_request).
  vm_compute. discriminate.
Defined.

(** A cache entry whose status is not 200 is answered with its own
    content, status and error code, under [max_age_short], whatever its
    [has_fts]; the index is neither downloaded nor opened. *)
Theorem cached_error_is_passed_on :
  forall (c : Collaborators) (s : Settings) (w : World) (request : Request)
         (dataset config split query : string) (offset length : nat)
         (cache_entry : Dict) (revision status content error_code : PyValue),
    get_request_parameter c request "dataset" = Ok dataset ->
    get_request_parameter c request "config" = Ok config ->
    get_request_parameter c request "split" = Ok split ->
    get_request_parameter c request "query" = Ok query ->
    get_request_parameter_offset c request = Ok offset ->
    get_request_parameter_length c request = Ok length ->
    auth_check c dataset request = Ok tt ->
    get_cache_entry_from_duckdb_index_job c dataset config split = Ok cache_entry ->
    dict_get cache_entry "dataset_git_revision" = Ok revision ->
    dict_get cache_entry "http_status" = Ok status ->
    is_not_http_ok status = true ->
    dict_get cache_entry "content" = Ok content ->
    dict_get cache_entry "error_code" = Ok error_code ->
    run (search_endpoint c s w request)
    = (Ok (JsonErrorResponse content status (max_age_short s) error_code revision),
       []).
Proof.
  intros c s w request dataset config split query offset length cache_entry
         revision status content error_code
         Hd Hc Hs Hq Ho Hl Ha He Hr Hst Hnot Hco Hcode.
  unfold run, search_endpoint, try_except.
  rewrite (bind_lift_ok _ _ _ _ Hd), (bind_lift_ok _ _ _ _ Hc),
    (bind_lift_ok _ _ _ _ Hs), (bind_lift_ok _ _ _ _ Hq),
    (bind_lift_ok _ _ _ _ Ho), (bind_lift_ok _ _ _ _ Hl),
    (bind_lift_ok _ _ _ _ Ha), (bind_lift_ok _ _ _ _ He),
    (bind_lift_ok _ _ _ _ Hr).
  unfold search_with_cache_entry.
  rewrite (bind_lift_ok _ _ _ _ Hst), Hnot.
  now rewrite (bind_lift_ok _ _ _ _ Hco), (bind_lift_ok _ _ _ _ Hcode).
Qed.

Lemma cached_error_is_passed_on_witness :
  run (search_endpoint
         (mkCollaborators
            (get_request_parameter (sample_collaborators PyNone))
            (fun _ => Ok 0) (fun _ => Ok 2) (fun _ _ => Ok tt)
            (fun _ _ _ =>
               Ok [("dataset_git_revision", PyNone);
                   ("http_status", PyInt 500);
                   ("error_code", PyStr "UnexpectedError");
                   ("content", PyDict [("error", PyStr "index failed")])])
            (fun _ => Ok false) (fun _ _ _ _ _ _ => Ok "index.duckdb")
            (fun d => Ok d) (fun _ => Ok []) (fun _ => ([], []))
            (fun _ => PyNone) (fun _ _ _ _ => Ok PyNone) 100)
         sample_settings
         (world_of stable_engine "index.duckdb" tied_index) sample_request)
  = (Ok (JsonErrorResponse (PyDict [("error", PyStr "index failed")])
           (PyInt 500) 10 (PyStr "UnexpectedError") PyNone),
     []).
Proof.
  apply (cached_error_is_passed_on _ sample_settings _ sample_request
           "wikimedia/wikipedia" "default" "train" "query" 0 2
           [("dataset_git_revision", PyNone);
            ("http_status", PyInt 500);
            ("error_code", PyStr "UnexpectedError");
            ("content", PyDict [("error", PyStr "index failed")])]);
    reflexivity.
Defined.

Lemma search_log_queries (w : World) (n : Z) (fts_batches : bool)
    (location query : string) (offset length : nat) (ext : option string) :
  Forall (fun ev => if fts_batches
                    then is_table_query ev = false
                    else is_window_query ev = false)
         (snd (run (full_text_search w n fts_batches location query
                      offset length ext))).
Proof.
  unfold run. destruct (files w location) as [idx|] eqn:Hfile.
  - rewrite (full_text_search_at w idx _ _ _ _ _ _ _ _ Hfile). cbn [snd app].
    unfold strategy_events. destruct fts_batches.
    + constructor; [reflexivity|]. constructor; [reflexivity|].
      apply Forall_app. split; [|repeat constructor].
      apply Forall_forall. intros ev Hev.
      apply in_map_iff in Hev as [i [<- _]]. reflexivity.
    + repeat constructor.
  - rewrite full_text_search_unopened by exact Hfile. constructor.
Qed.

Lemma search_log_queries_dyn (w : World) (v : PyValue) (fts_batches : bool)
    (location query : string) (offset length : nat) (ext : option string) :
  Forall (fun ev => if fts_batches
                    then is_table_query ev = false
                    else is_window_query ev = false)
         (snd (run (full_text_search_dyn w v fts_batches location query
                      offset length ext))).
Proof.
  unfold run. destruct fts_batches.
  - destruct (as_int v) as [n|e] eqn:Hv.
    + rewrite (full_text_search_dyn_int w v n _ _ _ _ _ _ _ Hv).
      apply (search_log_queries w n true location query offset length ext).
    + rewrite (full_text_search_dyn_type_error w v e _ _ _ _ _ _ Hv).
      destruct (files w location); cbn [snd app]; repeat constructor.
  - rewrite (full_text_search_dyn_direct w v 0).
    apply (search_log_queries w 0 false location query offset length ext).
Qed.

(** The strategy follows the allow-list: for a dataset of
    [DATASETS_WITH_FTS_BY_BATCHES] the endpoint never sends the direct
    ranked query, and for any other dataset it never sends a window
    query. *)
Theorem strategy_follows_allow_list :
  forall (c : Collaborators) (s : Settings) (w : World) (request : Request)
         (dataset : string),
    get_request_parameter c request "dataset" = Ok dataset ->
    let log := snd (run (search_endpoint c s w request)) in
    (In dataset DATASETS_WITH_FTS_BY_BATCHES ->
     Forall (fun ev => is_table_query ev = false) log)
    /\ (~ In dataset DATASETS_WITH_FTS_BY_BATCHES ->
        Forall (fun ev => is_window_query ev = false) log).
Proof.
  intros c s w request dataset Hdataset log. subst log.
  destruct (search_endpoint_cases c s w request)
    as [(revision & e & Hout)
       |[(content & status & code & revision & Hok & Hout)
        |(dataset' & config & split & query & offset & length & entry & revision
          & status & content & filename & url & n
          & Hd & _ & _ & _ & _ & _ & _ & _ & _ & _ & _ & _ & _ & _ & _ & _
          & Hrest)]].
  - rewrite Hout. split; intros _; constructor.
  - rewrite Hout. split; intros _; constructor.
  - assert (dataset' = dataset) by congruence. subst dataset'.
    destruct Hrest as [(e & Hout)|(location & _ & Hsearch)].
    { rewrite Hout. split; intros _; repeat constructor. }
    cbv zeta in Hsearch.
    pose proof (search_log_queries_dyn w n
                  (existsb (String.eqb dataset) DATASETS_WITH_FTS_BY_BATCHES)
                  location query offset length (extensions_directory s)) as Hlog.
    assert (Hsnd : snd (run (search_endpoint c s w request))
                   = EvDownload filename
                     :: snd (run (full_text_search_dyn w n
                                    (existsb (String.eqb dataset)
                                             DATASETS_WITH_FTS_BY_BATCHES)
                                    location query offset length
                                    (extensions_directory s)))).
    { destruct Hsearch as [(e & Hout)|(total & page & response & _ & _ & _ & Hout)];
        now rewrite Hout. }
    rewrite Hsnd. clear Hsnd Hsearch.
    destruct (existsb (String.eqb dataset) DATASETS_WITH_FTS_BY_BATCHES) eqn:E;
      split; intro Hin; (constructor; [reflexivity|]); try exact Hlog; exfalso.
    + apply existsb_exists in E as [x [Hx Heq]].
      apply String.eqb_eq in Heq. subst x. exact (Hin Hx).
    + assert (H : existsb (String.eqb dataset) DATASETS_WITH_FTS_BY_BATCHES = true).
      { apply existsb_exists. exists dataset.
        split; [exact Hin | apply String.eqb_refl]. }
      congruence.
Qed.

Lemma strategy_follows_allow_list_witness :
  Forall (fun ev => is_table_query ev = false)
         (snd (run (search_endpoint (sample_collaborators (PyBool true))
                      sample_settings
                      (world_of stable_engine "index.duckdb" tied_index)
                      sample_request))).
Proof.
  apply (proj1 (strategy_follows_allow_list
                  (sample_collaborators (PyBool true)) sample_settings
                  (world_of stable_engine "index.duckdb" tied_index)
                  sample_request "wikimedia/wikipedia" eq_refl)).
  simpl. auto.
Defined.

(* ------------------------------------------------------------------ *)
(** ** The response *)

Lemma drop_columns_raise (names : list string) (e : Exception) :
  fold_left (fun acc name => exc_bind acc (fun t' => drop t' name)) names (Raise e)
  = Raise e.
Proof. induction names as [|n names IH]; simpl; [reflexivity | exact IH]. Qed.

Lemma drop_columns_cons (t : Table) (name : string) (names : list string) :
  drop_columns t (name :: names)
  = exc_bind (drop t name) (fun t' => drop_columns t' names).
Proof.
  unfold drop_columns. simpl. destruct (drop t name) as [t'|e]; simpl;
    [reflexivity | apply drop_columns_raise].
Qed.

Lemma positions_single_filter (name : string) (names : list string) (k i : nat) :
  positions name names k = [i] ->
  remove_nth (i - k) names = filter (fun n => negb (String.eqb n name)) names
  /\ In name names.
Proof.
  revert k. induction names as [|n names IH]; intros k H; simpl in *;
    [discriminate|].
  destruct (String.eqb_spec n name) as [->|Hne]; simpl.
  - injection H as -> H. rewrite Nat.sub_diag. split; [|now left].
    apply positions_none in H. symmetry. apply forallb_filter_id.
    apply forallb_forall. intros x Hx.
    destruct (String.eqb_spec x name) as [->|_]; [contradiction | reflexivity].
  - pose proof (positions_single name names (S k) i H) as [Hle _].
    apply IH in H as [Hrem Hin]. split; [|now right].
    replace (i - k) with (S (i - S k)) by lia. cbn [remove_nth].
    now rewrite Hrem.
Qed.

Lemma drop_result (t t' : Table) (name : string) :
  drop t name = Ok t' ->
  schema t' = filter (fun n => negb (String.eqb n name)) (schema t)
  /\ In name (schema t)
  /\ num_rows t' = num_rows t.
Proof.
  unfold drop, get_field_index.
  destruct (positions name (schema t) 0) as [|i [|? ?]] eqn:E;
    try discriminate.
  intro H. injection H as <-. cbn [schema]. unfold num_rows. cbn [rows].
  apply positions_single_filter in E as [Hrem Hin].
  rewrite Nat.sub_0_r in Hrem. repeat split; [exact Hrem | exact Hin|].
  apply length_map.
Qed.

Lemma filter_twice {X : Type} (p q : X -> bool) (l : list X) :
  filter p (filter q l) = filter (fun x => q x && p x) l.
Proof.
  induction l as [|x l IH]; simpl; [reflexivity|].
  destruct (q x); simpl; [destruct (p x); now rewrite IH | exact IH].
Qed.

Lemma drop_columns_result (names : list string) :
  forall t t' : Table,
    drop_columns t names = Ok t' ->
    schema t'
    = filter (fun n => negb (existsb (String.eqb n) names)) (schema t)
    /\ (forall name, In name names -> In name (schema t))
    /\ num_rows t' = num_rows t.
Proof.
  induction names as [|name names IH]; intros t t' H.
  - injection H as <-. repeat split.
    + symmetry. apply forallb_filter_id. now apply forallb_forall.
    + intros name [].
  - rewrite drop_columns_cons in H.
    destruct (drop t name) as [t1|e] eqn:E; cbn [exc_bind] in H; [|discriminate].
    apply drop_result in E as (Hs1 & Hin1 & Hn1).
    apply IH in H as (Hs & Hin & Hn). repeat split.
    + rewrite Hs, Hs1, filter_twice. apply filter_ext. intro n. simpl.
      now rewrite negb_orb.
    + intros name' [<-|Hname']; [exact Hin1|].
      specialize (Hin name' Hname'). rewrite Hs1 in Hin.
      now apply filter_In in Hin.
    + congruence.
Qed.

(** [create_response] drops the unsupported columns before the rows
    are rendered: the table handed to [to_rows_list] has the rows of
    the page and its columns, in their order, without the unsupported
    ones, each of which was a column of the page.  The total and the
    [partial] flag are passed on unchanged, and the features listed do
    not include the row index. *)
Theorem create_response_drops_unsupported :
  forall (c : Collaborators) (pa_table : Table) (offset : nat)
         (features : Features) (total : Value) (partial : bool)
         (response : PaginatedResponse),
    let unsupported := snd (get_supported_unsupported_columns c features) in
    NoDup unsupported ->
    create_response c pa_table offset features total partial = Ok response ->
    exists rendered : Table,
      to_rows_list c rendered offset features unsupported
      = Ok (resp_rows response)
      /\ schema rendered
         = filter (fun n => negb (existsb (String.eqb n) unsupported))
                  (schema pa_table)
      /\ num_rows rendered = num_rows pa_table
      /\ (forall name, In name unsupported -> In name (schema pa_table))
      /\ resp_num_rows_total response = total
      /\ resp_partial response = partial
      /\ resp_features response
         = to_features_list c (dict_pop features ROW_IDX_COLUMN)
      /\ dict_get (dict_pop features ROW_IDX_COLUMN) ROW_IDX_COLUMN
         = Raise (KeyError ROW_IDX_COLUMN).
Proof.
  intros c pa_table offset features total partial response unsupported _ H.
  pose proof (create_response_fields _ _ _ _ _ _ _ H) as (Ht & Hp & _ & Hf).
  unfold create_response in H. fold unsupported in H.
  destruct (drop_columns pa_table unsupported) as [rendered|e] eqn:E;
    cbn [exc_bind] in H; [|discriminate].
  destruct (to_rows_list c rendered offset features unsupported) as [l|e] eqn:El;
    cbn [exc_bind] in H; [|discriminate].
  injection H as <-. cbn [resp_rows].
  apply drop_columns_result in E as (Hs & Hin & Hn).
  exists rendered. repeat split; try assumption.
  clear. induction features as [|[k v] features IH]; simpl; [reflexivity|].
  destruct (String.eqb_spec k ROW_IDX_COLUMN) as [->|Hne]; simpl; [exact IH|].
  destruct (String.eqb_spec k ROW_IDX_COLUMN); [contradiction | exact IH].
Qed.

Lemma create_response_drops_unsupported_witness :
  exists rendered : Table,
    schema rendered = ["__hf_index_id"; "text"]
    /\ num_rows rendered = 1.
Proof.
  destruct (create_response_drops_unsupported
              (mkCollaborators
                 (fun _ _ => Ok "") (fun _ => Ok 0) (fun _ => Ok 2)
                 (fun _ _ => Ok tt) (fun _ _ _ => Ok [])
                 (fun _ => Ok false) (fun _ _ _ _ _ _ => Ok "index.duckdb")
                 (fun d => Ok d) (fun _ => Ok [])
                 (fun _ => (["__hf_index_id"; "text"], ["image"]))
                 (fun _ => PyNone) (fun _ _ _ _ => Ok PyNone) 100)
              (mkTable ["__hf_index_id"; "text"; "image"]
                       [[VInt 0; VStr "doc"; VNull]])
              0 [] (VInt 1) false
              (mkPaginatedResponse PyNone PyNone (VInt 1) 100 false)
              ltac:(repeat constructor; simpl; tauto) eq_refl)
    as (rendered & _ & Hschema & Hrows & _).
  exists rendered. split; assumption.
Defined.

(* ------------------------------------------------------------------ *)
(** ** What a page holds *)

Lemma scored_rows_in (idx : Index) (query : string) (l : list DataRow)
    (rs : DataRow * Q) :
  In rs (where_score_is_not_null (scored idx query l)) ->
  In (fst rs) l /\ has_score idx query (fst rs) = true.
Proof.
  intro H. apply (in_map fst) in H. rewrite not_null_scored in H.
  now apply filter_In in H.
Qed.

Lemma in_slice {X : Type} (offset length : nat) (l : list X) (x : X) :
  In x (firstn length (skipn offset l)) -> In x l.
Proof.
  intro H. apply in_firstn in H.
  rewrite <- (firstn_skipn offset l). apply in_or_app. now right.
Qed.

(** A page holds only rows of [data] that have a non-null score for
    the query, whichever strategy produced it: each of its rows is the
    projection of such a row. *)
Theorem page_rows_match :
  forall (E : Engine) (idx : Index) (query : string) (offset length : nat)
         (num_original_rows : Z) (fts_batches : bool) (page : Table),
    index_wf idx -> engine_ok E ->
    fst (run (if fts_batches
              then _search_by_batches num_original_rows (mkCon E idx) query
                     offset length
              else _search_by_table (mkCon E idx) query offset length))
    = Ok page ->
    schema page = data_schema idx
    /\ forall row, In row (rows page) ->
         exists r, In r (data idx)
                   /\ has_score idx query r = true
                   /\ row = row_values idx r.
Proof.
  intros E idx query offset length n fts page Hwf HE. unfold run.
  destruct fts.
  - rewrite search_by_batches_run. cbn [fst].
    destruct (firstn _ (py_range 0 n FTS_BATCH_SIZE)) as [|i visited] eqn:Ev;
      [discriminate|].
    rewrite (after_loop_page (mkCon E idx) query offset length (i :: visited) Hwf)
      by discriminate.
    intro H. injection H as <-. cbn [schema rows con_index].
    split; [reflexivity|]. intros row Hrow. unfold page_of in Hrow.
    rewrite map_map in Hrow. apply in_map_iff in Hrow as [rs [<- Hrs]].
    apply in_slice in Hrs.
    apply (Permutation_in _ (sort_perm score_before _)) in Hrs.
    change (In rs (flat_map (window_rows idx query) (i :: visited))) in Hrs.
    apply in_flat_map in Hrs as [j [_ Hrs]]. unfold window_rows in Hrs.
    apply scored_rows_in in Hrs as [Hin Hscore].
    apply filter_In in Hin as [Hin _]. exists (fst rs). auto.
  - rewrite search_by_table_run. cbn [fst con_engine con_index].
    rewrite (by_table_result E idx query offset length Hwf).
    intro H. injection H as <-. cbn [schema rows].
    split; [reflexivity|]. intros row Hrow. unfold page_of in Hrow.
    rewrite map_map in Hrow. apply in_map_iff in Hrow as [rs [<- Hrs]].
    apply in_slice in Hrs.
    apply (Permutation_in _ (proj1 (HE (matches idx query)))) in Hrs.
    apply scored_rows_in in Hrs as [Hin Hscore]. exists (fst rs). auto.
Qed.

Lemma page_rows_match_witness :
  exists r, In r (data example_index)
            /\ has_score example_index "query" r = true
            /\ [VInt 900; VStr "doc"] = row_values example_index r.
Proof.
  refine (proj2 (page_rows_match stable_engine example_index "query" 0 2 2500
                   true
                   (mkTable ["__hf_index_id"; "text"]
                            [[VInt 900; VStr "doc"]; [VInt 50; VStr "doc"]])
                   (text_index_wf _ _) stable_engine_ok _)
                [VInt 900; VStr "doc"] _).
  - vm_compute. reflexivity.
  - simpl. auto.
Defined.

(* ------------------------------------------------------------------ *)
(** ** An index that fits in one window *)

Lemma py_range_one_window (n : Z) :
  (0 < n <= FTS_BATCH_SIZE)%Z -> py_range 0 n FTS_BATCH_SIZE = [0%Z].
Proof.
  unfold py_range, FTS_BATCH_SIZE. intro Hn.
  replace ((n - 0 + 1000 - 1) / 1000)%Z with 1%Z; [reflexivity|].
  Z.div_mod_to_equations. lia.
Qed.

Lemma filter_all {X : Type} (p : X -> bool) (l : list X) :
  (forall x, In x l -> p x = true) -> filter p l = l.
Proof. intro H. apply forallb_filter_id. now apply forallb_forall. Qed.

(** When [num_original_rows] is at most 1000 and every row identifier
    lies in the one window there is, the chunked strategy returns the
    page that the direct strategy returns with an engine whose
    [ORDER BY] is stable. *)
Theorem strategies_agree_on_one_window :
  forall (E : Engine) (idx : Index) (query : string) (offset length : nat)
         (num_original_rows : Z),
    index_wf idx ->
    (0 < num_original_rows <= FTS_BATCH_SIZE)%Z ->
    (forall r, In r (data idx) -> (0 <= hf_index_id r <= FTS_BATCH_SIZE)%Z) ->
    fst (run (_search_by_batches num_original_rows (mkCon E idx) query
                offset length))
    = fst (run (_search_by_table (mkCon stable_engine idx) query offset length)).
Proof.
  intros E idx query offset length n Hwf Hn Hids. unfold run.
  rewrite search_by_batches_run, search_by_table_run. cbn [fst].
  rewrite (py_range_one_window n Hn).
  assert (Hk : stop_after (offset + length) 0
                 (map (fun i => num_rows (window_table (mkCon E idx) query i))
                      [0%Z]) = 1).
  { simpl. now destruct (offset + length <? _). }
  rewrite Hk. cbn [firstn].
  rewrite (after_loop_page (mkCon E idx) query offset length [0%Z] Hwf)
    by discriminate.
  cbn [con_engine con_index]. rewrite (by_table_result _ idx query offset length Hwf).
  do 3 f_equal. cbn [flat_map order_by_score_desc stable_engine].
  rewrite app_nil_r. f_equal. unfold window_rows, matches.
  rewrite filter_all; [reflexivity|].
  intros r Hr. specialize (Hids r Hr). unfold between, FTS_BATCH_SIZE in *.
  apply andb_true_iff. split; apply Z.leb_le; lia.
Qed.

Lemma strategies_agree_on_one_window_witness :
  fst (run (_search_by_batches 2 (mkCon tie_reversing_engine tied_index)
              "query" 0 2))
  = fst (run (_search_by_table (mkCon stable_engine tied_index) "query" 0 2)).
Proof.
  apply (strategies_agree_on_one_window tie_reversing_engine tied_index
           "query" 0 2 2 (text_index_wf _ _)).
  - unfold FTS_BATCH_SIZE. lia.
  - intros r [<-|[<-|[]]]; unfold FTS_BATCH_SIZE; simpl; lia.
Defined.
